(** * Alibaba Cloud ESA adapter of ddns-go: a shallow embedding of
    [dns/esa.go] and the properties of its reconciliation pass.

    The Go code mutates [*config.Domain] objects through pointers, talks to
    the provider through one helper, [request], and reports through
    [util.Log].  The embedding threads an explicit state: the [ESA] struct,
    the objects its pointers reach, the provider, the sequence of requests
    handed to the transport, and the lines logged. *)

From Stdlib Require Import DecimalString.
From Stdlib Require DecimalPos DecimalZ.
From stdpp Require Import gmap strings list.

Local Open Scope string_scope.
Local Open Scope list_scope.

(** ** Data *)

(** [url.Values] is [map[string][]string]; [Set] replaces the values of a key
    by a single value. *)
Abbreviation Values := (gmap string (list string)).

Definition Values_Set (key value : string) (v : Values) : Values :=
  <[key := [value]]> v.

(** [strconv.FormatInt(z, 10)]: the decimal numeral, with a leading minus sign
    for negative numbers. *)
Definition FormatInt (z : Z) : string := NilZero.string_of_int (Z.to_int z).

(** The double-quote character of the JSON text. *)
Definition dquote : string := String (Ascii.ascii_of_nat 34) EmptyString.

(** Pointers are addresses in the stores of the state below. *)
Definition ptr := nat.

(** Modelled from the spec: the update-status type of package config, which is
    declared outside src/.  Section 3 lists its values as
    [NotExecuted | Success | Failed]; the adapter names the last two
    [config.UpdatedFailed] and [config.UpdatedSuccess]. *)
Inductive updateStatusType := NotExecuted | UpdatedFailed | UpdatedSuccess.

#[global] Instance updateStatusType_eq_dec : EqDecision updateStatusType.
Proof. solve_decision. Defined.

(** Modelled from the spec: [config.Domain], declared outside src/.  Section 3
    gives a domain a subdomain label, a root domain, an update status and a bag
    of custom parameters; the adapter reads [DomainName] and assigns
    [UpdateStatus]. *)
Record Domain := {
  DomainName : string;
  SubDomain : string;
  CustomParams : string;
  UpdateStatus : updateStatusType }.

Definition set_UpdateStatus (s : updateStatusType) (d : Domain) : Domain :=
  {| DomainName := DomainName d; SubDomain := SubDomain d;
     CustomParams := CustomParams d; UpdateStatus := s |}.

(** [config.DNS]: the account identifier and secret used for signing. *)
Record config_DNS := { ID : string; Secret : string }.

(** The two fields of [config.DnsConfig] that [Init] reads. *)
Record DnsConfig := { conf_DNS : config_DNS; conf_TTL : string }.

Record ESARecord := {
  RecordId : Z;
  RecordName : string;
  RType : string;
  Data_Value : string }.

Record ESASite := { SiteId : Z; SiteName : string }.

Record ESAListSitesResp := {
  sites_TotalCount : Z;
  Sites : list ESASite }.

Record ESAListRecordsResp := {
  records_TotalCount : Z;
  Records : list ESARecord }.

Record ESAResp := { RequestId : string; resp_RecordId : Z }.

(** A decoded JSON body.  [encoding/json] fills the fields a response struct
    declares and leaves the others at their zero value, so a body is described
    by the fields the three response structs read. *)
Record Body := {
  body_TotalCount : Z;
  body_Sites : list ESASite;
  body_Records : list ESARecord;
  body_RequestId : string;
  body_RecordId : Z }.

Definition decodeListSites (b : Body) : ESAListSitesResp :=
  {| sites_TotalCount := body_TotalCount b; Sites := body_Sites b |}.

Definition decodeListRecords (b : Body) : ESAListRecordsResp :=
  {| records_TotalCount := body_TotalCount b; Records := body_Records b |}.

Definition decodeResp (b : Body) : ESAResp :=
  {| RequestId := body_RequestId b; resp_RecordId := body_RecordId b |}.

(** A Go [(T, error)] result. *)
Inductive result (A : Type) :=
  | Ok (a : A)
  | Err (e : string).
Arguments Ok {A} a.
Arguments Err {A} e.

(** What [util.GetHTTPResponse] yields: an error (transport failure, non-2xx
    status, malformed body) or the decoded body. *)
Definition Reply := result Body.

(** [config.Domains]: the two cache pointers [Init] assigns, and the fields
    that package config keeps to itself. *)
Record config_Domains (DomainSet : Type) := {
  Ipv4Cache : ptr;
  Ipv6Cache : ptr;
  rest : DomainSet }.
Arguments Ipv4Cache {DomainSet} _.
Arguments Ipv6Cache {DomainSet} _.
Arguments rest {DomainSet} _.

(** [ESA]: the adapter struct. *)
Record ESA (DomainSet : Type) := {
  DNS : config_DNS;
  Domains : config_Domains DomainSet;
  TTL : string }.
Arguments DNS {DomainSet} _.
Arguments Domains {DomainSet} _.
Arguments TTL {DomainSet} _.

(** What the methods of [config.Domains] can reach: the struct itself, the
    caches and the domain objects. *)
Record ConfigMem (IpCache DomainSet : Type) := {
  cm_Domains : config_Domains DomainSet;
  cm_caches : ptr -> IpCache;
  cm_heap : ptr -> Domain }.
Arguments cm_Domains {IpCache DomainSet} _.
Arguments cm_caches {IpCache DomainSet} _.
Arguments cm_heap {IpCache DomainSet} _.

(** One use of the transport: the parameters handed to [request] and the
    query that was sent. *)
Record Call := { call_params : Values; call_query : Values }.

(** The lines [util.Log] is called with, one constructor per call site of
    the adapter, with the arguments of the format string.  A domain argument
    is the object as it is when the line is written. *)
Inductive LogLine :=
  | LogSiteIdFailed (domainName err : string)
  | LogListFailed (fullDomain err : string)
  | LogCreateFailed (domain : Domain) (err : string)
  | LogCreated (domain : Domain) (ipAddr : string)
  | LogUnchanged (ipAddr : string) (domain : Domain)
  | LogUpdateFailed (domain : Domain) (err : string)
  | LogUpdated (domain : Domain) (ipAddr : string).

(** The state the adapter runs in. *)
Record State (World IpCache DomainSet : Type) := {
  esa : ESA DomainSet;
  caches : ptr -> IpCache;
  heap : ptr -> Domain;
  world : World;
  sent : list Call;
  logs : list LogLine }.
Arguments esa {World IpCache DomainSet} _.
Arguments caches {World IpCache DomainSet} _.
Arguments heap {World IpCache DomainSet} _.
Arguments world {World IpCache DomainSet} _.
Arguments sent {World IpCache DomainSet} _.
Arguments logs {World IpCache DomainSet} _.

(** Code the adapter calls and src/ does not contain: the signer, the HTTP
    client with the response decoder, the methods of [config.Domain] and
    [config.Domains], and the JSON string encoder of the standard library. *)
Record Collaborators (World IpCache DomainSet : Type) := {
  AliyunSigner : string -> string -> Values -> Values;
  httpGet : Values -> World -> Reply * World;
  GetFullDomain : Domain -> string;
  GetCustomParams : Domain -> Values;
  jsonString : string -> string;
  GetNewIp : DnsConfig -> ConfigMem IpCache DomainSet ->
             ConfigMem IpCache DomainSet;
  GetNewIpResult : string -> ConfigMem IpCache DomainSet ->
                   (string * list ptr) * ConfigMem IpCache DomainSet }.
Arguments AliyunSigner {World IpCache DomainSet} _.
Arguments httpGet {World IpCache DomainSet} _.
Arguments GetFullDomain {World IpCache DomainSet} _.
Arguments GetCustomParams {World IpCache DomainSet} _.
Arguments jsonString {World IpCache DomainSet} _.
Arguments GetNewIp {World IpCache DomainSet} _.
Arguments GetNewIpResult {World IpCache DomainSet} _.

(** ** The adapter *)

Section Adapter.

Context {World IpCache DomainSet : Type}.
Variable env : Collaborators World IpCache DomainSet.

Abbreviation St := (State World IpCache DomainSet).

(** State-passing computations. *)
Definition M (A : Type) : Type := St -> A * St.

Definition ret {A} (a : A) : M A := fun st => (a, st).

Definition bind {A B} (m : M A) (k : A -> M B) : M B :=
  fun st => let '(a, st') := m st in k a st'.

Notation "'do' x <- m ; k" := (bind m (fun x => k))
  (at level 10, x name, m at level 100, k at level 200).
Notation "'run' m ; k" := (bind m (fun _ => k))
  (at level 10, m at level 100, k at level 200).

Definition deref (p : ptr) : M Domain := fun st => (heap st p, st).

(** [domain.UpdateStatus = s] through the pointer [p]. *)
Definition store_status (p : ptr) (s : updateStatusType)
    (h : ptr -> Domain) : ptr -> Domain :=
  fun q => if Nat.eqb q p then set_UpdateStatus s (h q) else h q.

Definition set_status (p : ptr) (s : updateStatusType) : M unit :=
  fun st =>
    (tt, {| esa := esa st; caches := caches st;
            heap := store_status p s (heap st);
            world := world st; sent := sent st; logs := logs st |}).

(** [util.Log] *)
Definition add_log (line : LogLine) (st : St) : St :=
  {| esa := esa st; caches := caches st; heap := heap st;
     world := world st; sent := sent st; logs := logs st ++ [line] |}.

Definition Log (line : LogLine) : M unit := fun st => (tt, add_log line st).

Definition mem_of (st : St) : ConfigMem IpCache DomainSet :=
  {| cm_Domains := Domains (esa st); cm_caches := caches st;
     cm_heap := heap st |}.

Definition with_mem (esa' : ESA DomainSet) (cm : ConfigMem IpCache DomainSet)
    (st : St) : St :=
  {| esa := {| DNS := DNS esa'; Domains := cm_Domains cm; TTL := TTL esa' |};
     caches := cm_caches cm; heap := cm_heap cm;
     world := world st; sent := sent st; logs := logs st |}.

(** [Init] *)
Definition Init (dnsConf : DnsConfig) (ipv4cache ipv6cache : ptr) : M unit :=
  fun st =>
    let ds := {| Ipv4Cache := ipv4cache; Ipv6Cache := ipv6cache;
                 rest := rest (Domains (esa st)) |} in
    let cm := GetNewIp env dnsConf
                {| cm_Domains := ds; cm_caches := caches st;
                   cm_heap := heap st |} in
    let ttl := if String.eqb (conf_TTL dnsConf) "" then "30"
               else conf_TTL dnsConf in
    (tt, with_mem {| DNS := conf_DNS dnsConf; Domains := ds; TTL := ttl |}
           cm st).

(** [request]: sign, send, decode.  [http.NewRequest] is called with the
    constant method and endpoint, for which it returns no error. *)
Definition request (params : Values) : M Reply :=
  fun st =>
    let signed := AliyunSigner env (ID (DNS (esa st)))
                    (Secret (DNS (esa st))) params in
    let '(reply, w) := httpGet env signed (world st) in
    (reply, {| esa := esa st; caches := caches st; heap := heap st;
               world := w;
               sent := sent st ++ [{| call_params := params;
                                      call_query := signed |}];
               logs := logs st |}).

Definition getSiteId_params (domainName : string) : Values :=
  Values_Set "ExactMatch" "true"
    (Values_Set "SiteName" domainName
      (Values_Set "Version" "2024-09-10"
        (Values_Set "Action" "ListSites" ∅))).

(** [result.Sites[0]] is read under the guard [len(result.Sites) != 0], so
    the branch for a missing element is never taken. *)
Definition getSiteId (domainName : string) : M (result Z) :=
  do r <- request (getSiteId_params domainName) ;
  match r with
  | Err e => ret (Err e)
  | Ok b =>
      let result := decodeListSites b in
      if (sites_TotalCount result =? 0)%Z
         || (length (Sites result) =? 0)%nat
      then ret (Err ("site not found for domain: " +:+ domainName))
      else
        match Sites result !! 0%nat with
        | Some s => ret (Ok (SiteId s))
        | None => ret (Err "index out of range")
        end
  end.

Definition listRecords_params (siteId : Z) (d : Domain) (recordType : string)
    : Values :=
  Values_Set "Type" recordType
    (Values_Set "RecordNameMode" "exact"
      (Values_Set "RecordName" (GetFullDomain env d)
        (Values_Set "SiteId" (FormatInt siteId)
          (Values_Set "Version" "2024-09-10"
            (Values_Set "Action" "ListRecords" ∅))))).

Definition listRecords (siteId : Z) (domain : ptr) (recordType : string)
    : M (result (list ESARecord)) :=
  do d <- deref domain ;
  do r <- request (listRecords_params siteId d recordType) ;
  match r with
  | Err e => ret (Err e)
  | Ok b => ret (Ok (Records (decodeListRecords b)))
  end.

(** [json.Marshal(map[string]string{"Value": ipAddr})] *)
Definition data_json (ipAddr : string) : string :=
  "{" +:+ dquote +:+ "Value" +:+ dquote +:+ ":" +:+ jsonString env ipAddr
  +:+ "}".

(** The parameters [create] builds: the custom parameters of the domain (a
    map of its own, returned by [GetCustomParams]), then the seven [Set]
    calls in the order of the source. *)
Definition create_params (ttl : string) (siteId : Z) (d : Domain)
    (recordType ipAddr : string) : Values :=
  Values_Set "TTL" ttl
    (Values_Set "Data" (data_json ipAddr)
      (Values_Set "Type" recordType
        (Values_Set "RecordName" (GetFullDomain env d)
          (Values_Set "SiteId" (FormatInt siteId)
            (Values_Set "Version" "2024-09-10"
              (Values_Set "Action" "CreateRecord"
                (GetCustomParams env d))))))).

Definition get_TTL : M string := fun st => (TTL (esa st), st).

Definition create (siteId : Z) (domain : ptr) (recordType ipAddr : string)
    : M unit :=
  do d <- deref domain ;
  do ttl <- get_TTL ;
  do r <- request (create_params ttl siteId d recordType ipAddr) ;
  match r with
  | Err e =>
      do d' <- deref domain ;
      run Log (LogCreateFailed d' e) ;
      set_status domain UpdatedFailed
  | Ok _ =>
      do d' <- deref domain ;
      run Log (LogCreated d' ipAddr) ;
      set_status domain UpdatedSuccess
  end.

(** The parameters [modify] builds: as [create], with [RecordId]. *)
Definition modify_params (ttl : string) (siteId : Z) (record : ESARecord)
    (d : Domain) (recordType ipAddr : string) : Values :=
  Values_Set "TTL" ttl
    (Values_Set "Data" (data_json ipAddr)
      (Values_Set "Type" recordType
        (Values_Set "RecordName" (GetFullDomain env d)
          (Values_Set "RecordId" (FormatInt (RecordId record))
            (Values_Set "SiteId" (FormatInt siteId)
              (Values_Set "Version" "2024-09-10"
                (Values_Set "Action" "UpdateRecord"
                  (GetCustomParams env d)))))))).

Definition modify (siteId : Z) (record : ESARecord) (domain : ptr)
    (recordType ipAddr : string) : M unit :=
  if String.eqb (Data_Value record) ipAddr then
    do d <- deref domain ;
    Log (LogUnchanged ipAddr d)
  else
    do d <- deref domain ;
    do ttl <- get_TTL ;
    do r <- request (modify_params ttl siteId record d recordType ipAddr) ;
    match r with
    | Err e =>
        do d' <- deref domain ;
        run Log (LogUpdateFailed d' e) ;
        set_status domain UpdatedFailed
    | Ok _ =>
        do d' <- deref domain ;
        run Log (LogUpdated d' ipAddr) ;
        set_status domain UpdatedSuccess
    end.

(** The body of the [for] loop of [addUpdateDomainRecords]. *)
Definition process_domain (recordType ipAddr : string) (domain : ptr)
    : M unit :=
  do d <- deref domain ;
  do r <- getSiteId (DomainName d) ;
  match r with
  | Err e =>
      do d' <- deref domain ;
      run Log (LogSiteIdFailed (DomainName d') e) ;
      set_status domain UpdatedFailed
  | Ok siteId =>
      do rs <- listRecords siteId domain recordType ;
      match rs with
      | Err e =>
          do d' <- deref domain ;
          run Log (LogListFailed (GetFullDomain env d') e) ;
          set_status domain UpdatedFailed
      | Ok records =>
          match records with
          | record0 :: _ => modify siteId record0 domain recordType ipAddr
          | [] => create siteId domain recordType ipAddr
          end
      end
  end.

Fixpoint for_domains (recordType ipAddr : string) (domains : list ptr)
    : M unit :=
  match domains with
  | [] => ret tt
  | domain :: domains' =>
      run process_domain recordType ipAddr domain ;
      for_domains recordType ipAddr domains'
  end.

(** [esa.Domains.GetNewIpResult(recordType)] *)
Definition get_new_ip_result (recordType : string) : M (string * list ptr) :=
  fun st =>
    let '(r, cm) := GetNewIpResult env recordType (mem_of st) in
    (r, with_mem (esa st) cm st).

Definition addUpdateDomainRecords (recordType : string) : M unit :=
  do r <- get_new_ip_result recordType ;
  let '(ipAddr, domains) := r in
  if String.eqb ipAddr "" then ret tt
  else for_domains recordType ipAddr domains.

Definition AddUpdateDomainRecords : M (config_Domains DomainSet) :=
  run addUpdateDomainRecords "A" ;
  run addUpdateDomainRecords "AAAA" ;
  (fun st => (Domains (esa st), st)).

(** ** Observations on the request sequence *)

(** The call [request] records for [params] under the credentials of [e]. *)
Definition signed_call (e : ESA DomainSet) (params : Values) : Call :=
  {| call_params := params;
     call_query := AliyunSigner env (ID (DNS e)) (Secret (DNS e)) params |}.

Definition signed_by (e : ESA DomainSet) (c : Call) : Prop :=
  call_query c
  = AliyunSigner env (ID (DNS e)) (Secret (DNS e)) (call_params c).

(** The provider after it has served the queries of [calls] in order. *)
Definition replay (w : World) (calls : list Call) : World :=
  fold_left (fun w c => snd (httpGet env (call_query c) w)) calls w.

Definition call_action (c : Call) : option (list string) :=
  call_params c !! "Action".

Definition is_action (a : string) (c : Call) : bool :=
  bool_decide (call_action c = Some [a]).

Definition is_write (c : Call) : bool :=
  is_action "CreateRecord" c || is_action "UpdateRecord" c.

Definition is_lookup (c : Call) : bool :=
  is_action "ListSites" c || is_action "ListRecords" c.

(** [d'] is [d] up to an assignment of [UpdatedSuccess] or [UpdatedFailed] to
    its status. *)
Definition status_only (d d' : Domain) : Prop :=
  DomainName d' = DomainName d /\ SubDomain d' = SubDomain d /\
  CustomParams d' = CustomParams d /\
  (UpdateStatus d' = UpdateStatus d \/ UpdateStatus d' = UpdatedSuccess \/
   UpdateStatus d' = UpdatedFailed).

(** What the adapter's own code does between two states: the struct and the
    caches stay, domains change in their status only, and the provider is
    reached through signed, recorded calls only. *)
Record progress (st st' : St) : Prop := {
  pr_esa : esa st' = esa st;
  pr_caches : caches st' = caches st;
  pr_heap : forall q, status_only (heap st q) (heap st' q);
  pr_calls : exists calls,
    sent st' = sent st ++ calls /\
    Forall (signed_by (esa st)) calls /\
    world st' = replay (world st) calls /\
    Forall (fun c => is_write c = true ->
                     call_params c !! "TTL" = Some [TTL (esa st)]) calls }.

(** The reply to [params], and the state once [request] has returned. *)
Definition reply_to (params : Values) (st : St) : Reply :=
  fst (httpGet env (call_query (signed_call (esa st) params)) (world st)).

Definition after_call (params : Values) (st : St) : St :=
  {| esa := esa st; caches := caches st; heap := heap st;
     world := snd (httpGet env (call_query (signed_call (esa st) params))
                     (world st));
     sent := sent st ++ [signed_call (esa st) params];
     logs := logs st |}.

(** The status and the log line that follow the reply to a write. *)
Definition status_of_reply (reply : Reply) : updateStatusType :=
  match reply with
  | Ok _ => UpdatedSuccess
  | Err _ => UpdatedFailed
  end.

Definition create_line (d : Domain) (ipAddr : string) (reply : Reply)
    : LogLine :=
  match reply with
  | Ok _ => LogCreated d ipAddr
  | Err e => LogCreateFailed d e
  end.

Definition modify_line (d : Domain) (ipAddr : string) (reply : Reply)
    : LogLine :=
  match reply with
  | Ok _ => LogUpdated d ipAddr
  | Err e => LogUpdateFailed d e
  end.

(** The two lookups at the head of the loop body: the zone, then the
    records, each with the line logged when it fails. *)
Definition lookups (recordType : string) (domain : ptr)
    : M (result (Z * list ESARecord)) :=
  fun st =>
    match getSiteId (DomainName (heap st domain)) st with
    | (Err e, st1) =>
        (Err e, add_log (LogSiteIdFailed (DomainName (heap st1 domain)) e) st1)
    | (Ok siteId, st1) =>
        match listRecords siteId domain recordType st1 with
        | (Err e, st2) =>
            (Err e,
             add_log (LogListFailed (GetFullDomain env (heap st2 domain)) e)
               st2)
        | (Ok records, st2) => (Ok (siteId, records), st2)
        end
    end.

(** What a run of adapter code may issue: the credentials stay, and every
    use of the transport is a recorded call signed with them. *)
Definition issues (st st' : St) : Prop :=
  DNS (esa st') = DNS (esa st) /\
  exists calls,
    sent st' = sent st ++ calls /\
    Forall (signed_by (esa st)) calls /\
    world st' = replay (world st) calls.

(** The TTL stays, and every create or update call issued carries it. *)
Definition writes_with_ttl (st st' : St) : Prop :=
  TTL (esa st') = TTL (esa st) /\
  exists calls,
    sent st' = sent st ++ calls /\
    Forall (fun c => is_write c = true ->
                     call_params c !! "TTL" = Some [TTL (esa st)]) calls.



End Adapter.

(** ** A concrete provider for the examples

    The provider is a script: each request consumes the next reply.  The
    signer adds the account identifier and a signature field; the domain set
    holds, per address family, the current address and the candidate
    domains. *)

Definition script := list Reply.

Definition script_get (q : Values) (w : script) : Reply * script :=
  match w with
  | r :: w' => (r, w')
  | [] => (Err "connection refused", [])
  end.

Definition demo_signer (id secret : string) (p : Values) : Values :=
  <["Signature" := [secret]]> (<["AccessKeyId" := [id]]> p).

Definition demo_full (d : Domain) : string :=
  if String.eqb (SubDomain d) "" then DomainName d
  else SubDomain d +:+ "." +:+ DomainName d.

(** A custom parameter string holds at most one [key=value] pair here. *)
Fixpoint split_eq (s : string) : string * string :=
  match s with
  | EmptyString => (EmptyString, EmptyString)
  | String c s' =>
      if Ascii.eqb c (Ascii.ascii_of_nat 61) then (EmptyString, s')
      else let '(k, v) := split_eq s' in (String c k, v)
  end.

Definition demo_custom (d : Domain) : Values :=
  if String.eqb (CustomParams d) "" then ∅
  else let '(k, v) := split_eq (CustomParams d) in {[ k := [v] ]}.

Definition demo_set : Type := (string * list ptr) * (string * list ptr).

Definition demo_result (recordType : string) (cm : ConfigMem string demo_set)
    : (string * list ptr) * ConfigMem string demo_set :=
  if String.eqb recordType "AAAA" then (snd (rest (cm_Domains cm)), cm)
  else (fst (rest (cm_Domains cm)), cm).

Definition demo_env : Collaborators script string demo_set :=
  {| AliyunSigner := demo_signer;
     httpGet := script_get;
     GetFullDomain := demo_full;
     GetCustomParams := demo_custom;
     jsonString := fun s => dquote +:+ s +:+ dquote;
     GetNewIp := fun _ cm => cm;
     GetNewIpResult := demo_result |}.

Definition demo_domain (sub custom : string) : Domain :=
  {| DomainName := "example.com"; SubDomain := sub; CustomParams := custom;
     UpdateStatus := NotExecuted |}.

Definition demo_heap (p : ptr) : Domain :=
  match p with
  | 0 => demo_domain "home" ""
  | 1 => demo_domain "office" "RecordId=999"
  | _ => demo_domain "" ""
  end.

Definition demo_state (ip4 : string) (ds4 : list ptr) (w : script)
    : State script string demo_set :=
  {| esa := {| DNS := {| ID := "key"; Secret := "secret" |};
               Domains := {| Ipv4Cache := 0; Ipv6Cache := 1;
                             rest := ((ip4, ds4), ("", [])) |};
               TTL := "30" |};
     caches := fun _ => "";
     heap := demo_heap;
     world := w;
     sent := [];
     logs := [] |}.

Definition empty_body : Body :=
  {| body_TotalCount := 0; body_Sites := []; body_Records := [];
     body_RequestId := "req"; body_RecordId := 0 |}.

Definition sites_body (sites : list ESASite) : Body :=
  {| body_TotalCount := Z.of_nat (length sites); body_Sites := sites;
     body_Records := []; body_RequestId := "req"; body_RecordId := 0 |}.

Definition records_body (records : list ESARecord) : Body :=
  {| body_TotalCount := Z.of_nat (length records); body_Sites := [];
     body_Records := records; body_RequestId := "req"; body_RecordId := 0 |}.

Definition demo_site (id : Z) : ESASite :=
  {| SiteId := id; SiteName := "example.com" |}.

Definition demo_record (id : Z) (name value : string) : ESARecord :=
  {| RecordId := id; RecordName := name; RType := "A"; Data_Value := value |}.

(** The states of the examples: one IPv4 address, the candidate domains, and
    the replies the provider will give. *)
Definition demo_ip : string := "203.0.113.5".

Definition home_record : ESARecord :=
  demo_record 11 "home.example.com" demo_ip.

Definition office_record : ESARecord :=
  demo_record 12 "office.example.com" demo_ip.

Definition stale_record (id : Z) (value : string) : ESARecord :=
  demo_record id "home.example.com" value.

(** The record of [home] already holds the address. *)
Definition unchanged_state : State script string demo_set :=
  demo_state demo_ip [0]
    [Ok (sites_body [demo_site 7]); Ok (records_body [home_record])].

(** Two sites carry the exact name. *)
Definition two_sites_state : State script string demo_set :=
  demo_state demo_ip [0] [Ok (sites_body [demo_site 7; demo_site 8])].


(** The zone query of [home] times out; the record of [office] already holds
    the address. *)
Definition failing_state : State script string demo_set :=
  demo_state demo_ip [0; 1]
    [Err "timeout"; Ok (sites_body [demo_site 7]);
     Ok (records_body [office_record])].

(** [office], whose custom parameters are [RecordId=999], has no record
    yet. *)
Definition first_run_state : State script string demo_set :=
  demo_state demo_ip [1]
    [Ok (sites_body [demo_site 7]); Ok (records_body []); Ok empty_body].

(** Two stale records are listed for [home]. *)
Definition two_records_state : State script string demo_set :=
  demo_state demo_ip [0]
    [Ok (sites_body [demo_site 7]);
     Ok (records_body [stale_record 11 "198.51.100.1";
                       stale_record 12 "198.51.100.2"]);
     Ok empty_body].

Definition demo_conf (ttl : string) : DnsConfig :=
  {| conf_DNS := {| ID := "key"; Secret := "secret" |}; conf_TTL := ttl |}.

(** ** Observations on whole runs *)

Section Runs.

Context {World IpCache DomainSet : Type}.
Variable env : Collaborators World IpCache DomainSet.

Abbreviation St := (State World IpCache DomainSet).

(** The calls and the log lines a run from [st] to [st'] has added. *)
Definition new_calls (st st' : St) : list Call :=
  drop (length (sent st)) (sent st').

Definition new_logs (st st' : St) : list LogLine :=
  drop (length (logs st)) (logs st').

(** The three shapes of the calls of one loop body. *)
Definition body_shape (calls : list Call) : bool :=
  match calls with
  | [c1] => is_action "ListSites" c1
  | [c1; c2] => is_action "ListSites" c1 && is_action "ListRecords" c2
  | [c1; c2; c3] =>
      is_action "ListSites" c1 && is_action "ListRecords" c2 && is_write c3
  | _ => false
  end.

(** A call that names a record type names [recordType]. *)
Definition typed_as (recordType : string) (c : Call) : Prop :=
  is_action "ListSites" c = true \/
  call_params c !! "Type" = Some [recordType].

(** The lookups for [domain] succeed and the first record listed holds
    [ipAddr]. *)
Definition record_current (recordType ipAddr : string) (domain : ptr)
    (st : St) : bool :=
  match fst (lookups env recordType domain st) with
  | Ok (_, record0 :: _) => String.eqb (Data_Value record0) ipAddr
  | _ => false
  end.

(** Each domain of the list is current when the loop reaches it. *)
Fixpoint all_current (recordType ipAddr : string) (domains : list ptr)
    (st : St) : bool :=
  match domains with
  | [] => true
  | domain :: domains' =>
      record_current recordType ipAddr domain st
      && all_current recordType ipAddr domains'
           (snd (process_domain env recordType ipAddr domain st))
  end.

(** The store once [UpdatedFailed] is assigned to each domain of the list. *)
Definition all_failed (domains : list ptr) (h : ptr -> Domain)
    : ptr -> Domain :=
  fold_left (fun h p => store_status p UpdatedFailed h) domains h.

(** The state after the zone query of [domain], and after the record query
    that follows it. *)
Definition after_zone (domain : ptr) (st : St) : St :=
  after_call env (getSiteId_params (DomainName (heap st domain))) st.

Definition after_listing (recordType : string) (siteId : Z) (domain : ptr)
    (st : St) : St :=
  after_call env (listRecords_params env siteId (heap st domain) recordType)
    (after_zone domain st).

(** The five ways through the loop body, told apart by what the two lookups
    return. *)
Inductive body_case :=
  | ZoneFailed (e : string)
  | ListingFailed (siteId : Z) (e : string)
  | Unchanged (siteId : Z) (record0 : ESARecord)
  | Creates (siteId : Z)
  | Updates (siteId : Z) (record0 : ESARecord).

Definition classify (recordType ipAddr : string) (domain : ptr) (st : St)
    : body_case :=
  match getSiteId env (DomainName (heap st domain)) st with
  | (Err e, _) => ZoneFailed e
  | (Ok siteId, st1) =>
      match fst (listRecords env siteId domain recordType st1) with
      | Err e => ListingFailed siteId e
      | Ok [] => Creates siteId
      | Ok (record0 :: _) =>
          if String.eqb (Data_Value record0) ipAddr
          then Unchanged siteId record0
          else Updates siteId record0
      end
  end.

(** A write: the call, the status stored and the line logged after the
    reply. *)
Definition after_write (params : Values) (line : Reply -> LogLine)
    (domain : ptr) (st : St) : St :=
  snd (set_status domain (status_of_reply (reply_to env params st))
         (add_log (line (reply_to env params st))
            (after_call env params st))).

Definition after_failure (line : LogLine) (domain : ptr) (st : St) : St :=
  snd (set_status domain UpdatedFailed (add_log line st)).

(** The state the loop body leaves, case by case. *)
Definition body_result (recordType ipAddr : string) (domain : ptr) (st : St)
    : St :=
  let d := heap st domain in
  match classify recordType ipAddr domain st with
  | ZoneFailed e =>
      after_failure (LogSiteIdFailed (DomainName d) e) domain
        (after_zone domain st)
  | ListingFailed siteId e =>
      after_failure (LogListFailed (GetFullDomain env d) e) domain
        (after_listing recordType siteId domain st)
  | Unchanged siteId record0 =>
      add_log (LogUnchanged ipAddr d)
        (after_listing recordType siteId domain st)
  | Creates siteId =>
      after_write
        (create_params env (TTL (esa st)) siteId d recordType ipAddr)
        (create_line d ipAddr) domain
        (after_listing recordType siteId domain st)
  | Updates siteId record0 =>
      after_write
        (modify_params env (TTL (esa st)) siteId record0 d recordType ipAddr)
        (modify_line d ipAddr) domain
        (after_listing recordType siteId domain st)
  end.

(** The calls of the loop body, in the order they are sent. *)
Definition zone_call (domain : ptr) (st : St) : Call :=
  signed_call env (esa st) (getSiteId_params (DomainName (heap st domain))).

Definition listing_call (recordType : string) (siteId : Z) (domain : ptr)
    (st : St) : Call :=
  signed_call env (esa st)
    (listRecords_params env siteId (heap st domain) recordType).

Definition create_call_of (recordType ipAddr : string) (siteId : Z)
    (domain : ptr) (st : St) : Call :=
  signed_call env (esa st)
    (create_params env (TTL (esa st)) siteId (heap st domain) recordType
       ipAddr).

Definition update_call_of (recordType ipAddr : string) (siteId : Z)
    (record0 : ESARecord) (domain : ptr) (st : St) : Call :=
  signed_call env (esa st)
    (modify_params env (TTL (esa st)) siteId record0 (heap st domain)
       recordType ipAddr).

Definition body_calls (recordType ipAddr : string) (domain : ptr) (st : St)
    : list Call :=
  match classify recordType ipAddr domain st with
  | ZoneFailed _ => [zone_call domain st]
  | ListingFailed siteId _ | Unchanged siteId _ =>
      [zone_call domain st; listing_call recordType siteId domain st]
  | Creates siteId =>
      [zone_call domain st; listing_call recordType siteId domain st;
       create_call_of recordType ipAddr siteId domain st]
  | Updates siteId record0 =>
      [zone_call domain st; listing_call recordType siteId domain st;
       update_call_of recordType ipAddr siteId record0 domain st]
  end.

(** The reply to the write of the loop body, when there is one. *)
Definition write_reply (recordType ipAddr : string) (domain : ptr) (st : St)
    : option Reply :=
  match classify recordType ipAddr domain st with
  | Creates siteId =>
      Some (reply_to env
              (create_params env (TTL (esa st)) siteId (heap st domain)
                 recordType ipAddr)
              (after_listing recordType siteId domain st))
  | Updates siteId record0 =>
      Some (reply_to env
              (modify_params env (TTL (esa st)) siteId record0
                 (heap st domain) recordType ipAddr)
              (after_listing recordType siteId domain st))
  | _ => None
  end.

(** The status the loop body assigns, if it assigns one. *)
Definition body_store (recordType ipAddr : string) (domain : ptr) (st : St)
    : option updateStatusType :=
  match classify recordType ipAddr domain st with
  | ZoneFailed _ | ListingFailed _ _ => Some UpdatedFailed
  | Unchanged _ _ => None
  | Creates _ | Updates _ _ =>
      option_map status_of_reply (write_reply recordType ipAddr domain st)
  end.

(** The line the loop body logs. *)
Definition body_line (recordType ipAddr : string) (domain : ptr) (st : St)
    : LogLine :=
  let d := heap st domain in
  match classify recordType ipAddr domain st with
  | ZoneFailed e => LogSiteIdFailed (DomainName d) e
  | ListingFailed _ e => LogListFailed (GetFullDomain env d) e
  | Unchanged _ _ => LogUnchanged ipAddr d
  | Creates siteId =>
      create_line d ipAddr
        (reply_to env
           (create_params env (TTL (esa st)) siteId d recordType ipAddr)
           (after_listing recordType siteId domain st))
  | Updates siteId record0 =>
      modify_line d ipAddr
        (reply_to env
           (modify_params env (TTL (esa st)) siteId record0 d recordType
              ipAddr)
           (after_listing recordType siteId domain st))
  end.

Definition count_writes (calls : list Call) : nat :=
  length (List.filter is_write calls).

(** The calls and the log lines of the loop over a list of domains. *)
Fixpoint pass_calls (recordType ipAddr : string) (domains : list ptr)
    (st : St) : list Call :=
  match domains with
  | [] => []
  | domain :: domains' =>
      body_calls recordType ipAddr domain st
      ++ pass_calls recordType ipAddr domains'
           (snd (process_domain env recordType ipAddr domain st))
  end.

Fixpoint pass_lines (recordType ipAddr : string) (domains : list ptr)
    (st : St) : list LogLine :=
  match domains with
  | [] => []
  | domain :: domains' =>
      body_line recordType ipAddr domain st
      :: pass_lines recordType ipAddr domains'
           (snd (process_domain env recordType ipAddr domain st))
  end.

(** [strconv.ParseInt(s, 10, 64)] on the numerals [FormatInt] writes. *)
Definition ParseInt (s : string) : option Z :=
  option_map Z.of_int (NilZero.int_of_string s).

End Runs.

(** A provider that is unreachable: every request fails. *)
Definition down_env : Collaborators unit string demo_set :=
  {| AliyunSigner := demo_signer;
     httpGet := fun _ w => (Err "connection refused", w);
     GetFullDomain := demo_full;
     GetCustomParams := demo_custom;
     jsonString := fun s => dquote +:+ s +:+ dquote;
     GetNewIp := fun _ cm => cm;
     GetNewIpResult := demo_result |}.

Definition down_state : State unit string demo_set :=
  {| esa := {| DNS := {| ID := "key"; Secret := "secret" |};
               Domains := {| Ipv4Cache := 0; Ipv6Cache := 1;
                             rest := ((demo_ip, [0; 1]), ("", [])) |};
               TTL := "30" |};
     caches := fun _ => "";
     heap := demo_heap;
     world := tt;
     sent := [];
     logs := [] |}.

(** The record of [home] is stale and the update is accepted. *)
Definition stale_state : State script string demo_set :=
  demo_state demo_ip [0]
    [Ok (sites_body [demo_site 7]);
     Ok (records_body [stale_record 11 "198.51.100.1"]);
     Ok empty_body].

(** The records of [home] and [office] both hold the address. *)
Definition current_state : State script string demo_set :=
  demo_state demo_ip [0; 1]
    [Ok (sites_body [demo_site 7]); Ok (records_body [home_record]);
     Ok (sites_body [demo_site 7]); Ok (records_body [office_record])].

(** The zone of [home] resolves and its listing times out. *)
Definition list_error_state : State script string demo_set :=
  demo_state demo_ip [0]
    [Ok (sites_body [demo_site 7]); Err "timeout"].

(** Both families have an address: [home] is created as A, [office] as
    AAAA. *)
Definition dual_state : State script string demo_set :=
  {| esa := {| DNS := {| ID := "key"; Secret := "secret" |};
               Domains := {| Ipv4Cache := 0; Ipv6Cache := 1;
                             rest := ((demo_ip, [0]), ("2001:db8::5", [1])) |};
               TTL := "30" |};
     caches := fun _ => "";
     heap := demo_heap;
     world := [Ok (sites_body [demo_site 7]); Ok (records_body []);
               Ok empty_body;
               Ok (sites_body [demo_site 7]); Ok (records_body []);
               Ok empty_body];
     sent := [];
     logs := [] |}.

(** ** Equations of the operations *)

Section Properties.

Context {World IpCache DomainSet : Type}.
Variable env : Collaborators World IpCache DomainSet.

Abbreviation St := (State World IpCache DomainSet).

Lemma request_unfold (params : Values) (st : St) :
  request env params st =
  (fst (httpGet env (call_query (signed_call env (esa st) params)) (world st)),
   {| esa := esa st; caches := caches st; heap := heap st;
      world := snd (httpGet env (call_query (signed_call env (esa st) params))
                      (world st));
      sent := sent st ++ [signed_call env (esa st) params];
      logs := logs st |}).
Proof.
  unfold request, signed_call; simpl.
  destruct (httpGet env _ (world st)) as [reply w]; reflexivity.
Qed.

Lemma getSiteId_state (domainName : string) (st : St) :
  snd (getSiteId env domainName st)
  = snd (request env (getSiteId_params domainName) st).
Proof.
  unfold getSiteId, bind.
  destruct (request env (getSiteId_params domainName) st) as [[b|e] st1];
    simpl; [|reflexivity].
  destruct ((body_TotalCount b =? 0)%Z || (length (body_Sites b) =? 0)%nat);
    [reflexivity|].
  destruct (body_Sites b !! 0%nat); reflexivity.
Qed.

Lemma listRecords_state (siteId : Z) (p : ptr) (recordType : string)
    (st : St) :
  snd (listRecords env siteId p recordType st)
  = snd (request env (listRecords_params env siteId (heap st p) recordType)
           st).
Proof.
  unfold listRecords, bind, deref.
  destruct (request env _ st) as [[b|e] st1]; reflexivity.
Qed.

Lemma for_domains_app (recordType ipAddr : string) (pre post : list ptr)
    (st : St) :
  for_domains env recordType ipAddr (pre ++ post) st
  = for_domains env recordType ipAddr post
      (snd (for_domains env recordType ipAddr pre st)).
Proof.
  revert st; induction pre as [|p pre IH]; intros st; simpl.
  - reflexivity.
  - unfold bind.
    destruct (process_domain env recordType ipAddr p st) as [u st1].
    apply IH.
Qed.

Lemma for_domains_cons (recordType ipAddr : string) (p : ptr)
    (post : list ptr) (st : St) :
  for_domains env recordType ipAddr (p :: post) st
  = for_domains env recordType ipAddr post
      (snd (process_domain env recordType ipAddr p st)).
Proof.
  simpl; unfold bind.
  destruct (process_domain env recordType ipAddr p st); reflexivity.
Qed.

(** ** The adapter's footprint *)

Lemma status_only_refl (d : Domain) : status_only d d.
Proof. unfold status_only; auto. Qed.

Lemma status_only_trans (d1 d2 d3 : Domain) :
  status_only d1 d2 -> status_only d2 d3 -> status_only d1 d3.
Proof.
  unfold status_only; intros (n1 & s1 & c1 & u1) (n2 & s2 & c2 & u2).
  repeat split; try congruence.
  destruct u2 as [u2|[u2|u2]]; [rewrite u2; exact u1|auto..].
Qed.

Lemma status_only_store (p q : ptr) (s : updateStatusType)
    (h : ptr -> Domain) :
  s = UpdatedSuccess \/ s = UpdatedFailed ->
  status_only (h q) (store_status p s h q).
Proof.
  intros Hs; unfold store_status.
  destruct (Nat.eqb q p); [|apply status_only_refl].
  unfold status_only; simpl; intuition.
Qed.

Lemma replay_app (w : World) (cs1 cs2 : list Call) :
  replay env w (cs1 ++ cs2) = replay env (replay env w cs1) cs2.
Proof. unfold replay; apply fold_left_app. Qed.

Lemma progress_refl (st : St) : progress env st st.
Proof.
  split; auto using status_only_refl.
  exists []; rewrite app_nil_r; repeat split; constructor.
Qed.

Lemma progress_trans (st1 st2 st3 : St) :
  progress env st1 st2 -> progress env st2 st3 -> progress env st1 st3.
Proof.
  intros [e1 c1 h1 (cs1 & s1 & g1 & w1 & t1)]
         [e2 c2 h2 (cs2 & s2 & g2 & w2 & t2)].
  split.
  - congruence.
  - congruence.
  - intros q; eapply status_only_trans; eauto.
  - exists (cs1 ++ cs2); rewrite e1 in *.
    split; [rewrite s2, s1, app_assoc; reflexivity|].
    split; [apply Forall_app; auto|].
    split; [rewrite w2, w1, replay_app; reflexivity|].
    apply Forall_app; auto.
Qed.

Lemma request_progress (params : Values) (st : St) :
  (is_write (signed_call env (esa st) params) = true ->
   params !! "TTL" = Some [TTL (esa st)]) ->
  progress env st (snd (request env params st)).
Proof.
  intros Httl; rewrite request_unfold; simpl.
  split; simpl; auto using status_only_refl.
  exists [signed_call env (esa st) params].
  repeat split; repeat constructor; auto.
Qed.

Lemma set_status_progress (p : ptr) (s : updateStatusType) (st : St) :
  s = UpdatedSuccess \/ s = UpdatedFailed ->
  progress env st (snd (set_status p s st)).
Proof.
  intros Hs; split; simpl; auto using status_only_store.
  exists []; rewrite app_nil_r; repeat split; constructor.
Qed.

Lemma add_log_progress (line : LogLine) (st : St) :
  progress env st (add_log line st).
Proof.
  split; simpl; auto using status_only_refl.
  exists []; rewrite app_nil_r; repeat split; constructor.
Qed.

(** A log line, then a status. *)
Lemma log_status_progress (line : LogLine) (p : ptr) (s : updateStatusType)
    (st : St) :
  s = UpdatedSuccess \/ s = UpdatedFailed ->
  progress env st (snd (set_status p s (add_log line st))).
Proof.
  intros Hs; eapply progress_trans; [apply add_log_progress|].
  apply set_status_progress; exact Hs.
Qed.

(** ** The parameters of the four requests *)

Ltac values_lookup :=
  unfold getSiteId_params, listRecords_params, create_params, modify_params,
    Values_Set;
  repeat first
    [ rewrite lookup_insert_eq
    | rewrite lookup_insert_ne by (intro; discriminate) ];
  try reflexivity.

Lemma getSiteId_params_action (n : string) :
  getSiteId_params n !! "Action" = Some ["ListSites"].
Proof. values_lookup. Qed.

Lemma listRecords_params_action (siteId : Z) (d : Domain) (rt : string) :
  listRecords_params env siteId d rt !! "Action" = Some ["ListRecords"].
Proof. values_lookup. Qed.

Lemma create_params_action (ttl : string) (siteId : Z) (d : Domain)
    (rt ip : string) :
  create_params env ttl siteId d rt ip !! "Action" = Some ["CreateRecord"].
Proof. values_lookup. Qed.

Lemma modify_params_action (ttl : string) (siteId : Z) (r : ESARecord)
    (d : Domain) (rt ip : string) :
  modify_params env ttl siteId r d rt ip !! "Action" = Some ["UpdateRecord"].
Proof. values_lookup. Qed.

Lemma create_params_ttl (ttl : string) (siteId : Z) (d : Domain)
    (rt ip : string) :
  create_params env ttl siteId d rt ip !! "TTL" = Some [ttl].
Proof. values_lookup. Qed.

Lemma modify_params_ttl (ttl : string) (siteId : Z) (r : ESARecord)
    (d : Domain) (rt ip : string) :
  modify_params env ttl siteId r d rt ip !! "TTL" = Some [ttl].
Proof. values_lookup. Qed.

Lemma is_action_signed_call (a : string) (e : ESA DomainSet) (params : Values) :
  is_action a (signed_call env e params)
  = bool_decide (params !! "Action" = Some [a]).
Proof. reflexivity. Qed.

Lemma is_action_of (a b : string) (e : ESA DomainSet) (params : Values) :
  params !! "Action" = Some [b] ->
  is_action a (signed_call env e params) = bool_decide (b = a).
Proof.
  intros H; rewrite is_action_signed_call, H.
  apply bool_decide_ext; split; intros E; [injection E; auto | subst; auto].
Qed.

Lemma lookup_call_sites (e : ESA DomainSet) (n : string) :
  is_write (signed_call env e (getSiteId_params n)) = false /\
  is_lookup (signed_call env e (getSiteId_params n)) = true.
Proof.
  unfold is_write, is_lookup.
  rewrite !(is_action_of _ _ _ _ (getSiteId_params_action n)).
  split; reflexivity.
Qed.

Lemma lookup_call_records (e : ESA DomainSet) (siteId : Z) (d : Domain)
    (rt : string) :
  is_write (signed_call env e (listRecords_params env siteId d rt)) = false /\
  is_lookup (signed_call env e (listRecords_params env siteId d rt)) = true.
Proof.
  unfold is_write, is_lookup.
  rewrite !(is_action_of _ _ _ _ (listRecords_params_action siteId d rt)).
  split; reflexivity.
Qed.

(** ** Footprint of each operation *)

Lemma getSiteId_progress (n : string) (st : St) :
  progress env st (snd (getSiteId env n st)).
Proof.
  rewrite getSiteId_state; apply request_progress.
  intros H; rewrite (proj1 (lookup_call_sites _ n)) in H; discriminate.
Qed.

Lemma listRecords_progress (siteId : Z) (p : ptr) (rt : string) (st : St) :
  progress env st (snd (listRecords env siteId p rt st)).
Proof.
  rewrite listRecords_state; apply request_progress.
  intros H; rewrite (proj1 (lookup_call_records _ siteId _ rt)) in H.
  discriminate.
Qed.

Lemma create_progress (siteId : Z) (p : ptr) (rt ip : string) (st : St) :
  progress env st (snd (create env siteId p rt ip st)).
Proof.
  unfold create, bind, deref, get_TTL.
  pose proof (request_progress
    (create_params env (TTL (esa st)) siteId (heap st p) rt ip) st
    (fun _ => create_params_ttl _ _ _ _ _)) as Hreq.
  destruct (request env _ st) as [[b|e] st1]; simpl in Hreq;
    (eapply progress_trans; [exact Hreq|apply log_status_progress; auto]).
Qed.

Lemma modify_progress (siteId : Z) (r : ESARecord) (p : ptr) (rt ip : string)
    (st : St) :
  progress env st (snd (modify env siteId r p rt ip st)).
Proof.
  unfold modify.
  destruct (String.eqb (Data_Value r) ip); [apply add_log_progress|].
  unfold bind, deref, get_TTL.
  pose proof (request_progress
    (modify_params env (TTL (esa st)) siteId r (heap st p) rt ip) st
    (fun _ => modify_params_ttl _ _ _ _ _ _)) as Hreq.
  destruct (request env _ st) as [[b|e] st1]; simpl in Hreq;
    (eapply progress_trans; [exact Hreq|apply log_status_progress; auto]).
Qed.

Lemma process_domain_progress (rt ip : string) (p : ptr) (st : St) :
  progress env st (snd (process_domain env rt ip p st)).
Proof.
  unfold process_domain, bind, deref.
  pose proof (getSiteId_progress (DomainName (heap st p)) st) as H1.
  destruct (getSiteId env (DomainName (heap st p)) st) as [[siteId|e] st1];
    simpl in H1.
  - pose proof (listRecords_progress siteId p rt st1) as H2.
    destruct (listRecords env siteId p rt st1) as [[[|r0 rs]|e] st2];
      simpl in H2.
    + eapply progress_trans; [exact H1|].
      eapply progress_trans; [exact H2|apply create_progress].
    + eapply progress_trans; [exact H1|].
      eapply progress_trans; [exact H2|apply modify_progress].
    + eapply progress_trans; [exact H1|].
      eapply progress_trans; [exact H2|apply log_status_progress; auto].
  - eapply progress_trans; [exact H1|apply log_status_progress; auto].
Qed.

Lemma for_domains_progress (rt ip : string) (ds : list ptr) (st : St) :
  progress env st (snd (for_domains env rt ip ds st)).
Proof.
  revert st; induction ds as [|p ds IH]; intros st.
  - apply progress_refl.
  - rewrite for_domains_cons.
    eapply progress_trans; [apply process_domain_progress|apply IH].
Qed.

(** ** Credentials, TTL and calls across a whole pass *)

Lemma issues_refl (st : St) : issues env st st.
Proof.
  split; [reflexivity|].
  exists []; rewrite app_nil_r; repeat split; constructor.
Qed.

Lemma signed_by_DNS (e e' : ESA DomainSet) (c : Call) :
  DNS e' = DNS e -> signed_by env e c -> signed_by env e' c.
Proof. unfold signed_by; intros ->; auto. Qed.

Lemma issues_trans (st1 st2 st3 : St) :
  issues env st1 st2 -> issues env st2 st3 -> issues env st1 st3.
Proof.
  intros (d1 & cs1 & s1 & g1 & w1) (d2 & cs2 & s2 & g2 & w2).
  split; [congruence|].
  exists (cs1 ++ cs2).
  split; [rewrite s2, s1, app_assoc; reflexivity|].
  split; [|rewrite w2, w1, replay_app; reflexivity].
  apply Forall_app; split; [exact g1|].
  eapply Forall_impl; [exact g2|].
  intros c Hc; eapply signed_by_DNS; [|exact Hc]; congruence.
Qed.

Lemma progress_issues (st st' : St) : progress env st st' -> issues env st st'.
Proof.
  intros [e c h (cs & s & g & w & l)].
  split; [rewrite e; reflexivity|].
  exists cs; auto.
Qed.

Lemma get_new_ip_result_issues (rt : string) (st : St) :
  issues env st (snd (get_new_ip_result env rt st)).
Proof.
  unfold get_new_ip_result.
  destruct (GetNewIpResult env rt (mem_of st)) as [r cm]; simpl.
  split; [reflexivity|].
  exists []; rewrite app_nil_r; repeat split; constructor.
Qed.

Lemma writes_with_ttl_trans (st1 st2 st3 : St) :
  writes_with_ttl st1 st2 -> writes_with_ttl st2 st3 ->
  writes_with_ttl st1 st3.
Proof.
  intros (t1 & cs1 & s1 & l1) (t2 & cs2 & s2 & l2).
  split; [congruence|].
  exists (cs1 ++ cs2).
  split; [rewrite s2, s1, app_assoc; reflexivity|].
  apply Forall_app; split; [exact l1|].
  eapply Forall_impl; [exact l2|].
  intros c Hc Hw; rewrite (Hc Hw), t1; reflexivity.
Qed.

Lemma progress_ttl (st st' : St) :
  progress env st st' -> writes_with_ttl st st'.
Proof.
  intros [e c h (cs & s & g & w & l)].
  split; [rewrite e; reflexivity|].
  exists cs; auto.
Qed.

Lemma get_new_ip_result_ttl (rt : string) (st : St) :
  writes_with_ttl st (snd (get_new_ip_result env rt st)).
Proof.
  unfold get_new_ip_result.
  destruct (GetNewIpResult env rt (mem_of st)) as [r cm]; simpl.
  split; [reflexivity|].
  exists []; rewrite app_nil_r; repeat split; constructor.
Qed.

Lemma addUpdateDomainRecords_unfold (rt : string) (st : St) :
  addUpdateDomainRecords env rt st =
  if String.eqb (fst (fst (get_new_ip_result env rt st))) ""
  then (tt, snd (get_new_ip_result env rt st))
  else for_domains env rt (fst (fst (get_new_ip_result env rt st)))
         (snd (fst (get_new_ip_result env rt st)))
         (snd (get_new_ip_result env rt st)).
Proof.
  unfold addUpdateDomainRecords, bind.
  destruct (get_new_ip_result env rt st) as [[ip ds] st1]; simpl.
  destruct (String.eqb ip ""); reflexivity.
Qed.

Lemma addUpdateDomainRecords_progress (rt : string) (st : St) :
  progress env (snd (get_new_ip_result env rt st))
    (snd (addUpdateDomainRecords env rt st)).
Proof.
  rewrite addUpdateDomainRecords_unfold.
  destruct (String.eqb _ ""); simpl.
  - apply progress_refl.
  - apply for_domains_progress.
Qed.

Lemma addUpdateDomainRecords_issues (rt : string) (st : St) :
  issues env st (snd (addUpdateDomainRecords env rt st)).
Proof.
  eapply issues_trans; [apply get_new_ip_result_issues|].
  apply progress_issues, addUpdateDomainRecords_progress.
Qed.

Lemma AddUpdateDomainRecords_state (st : St) :
  snd (AddUpdateDomainRecords env st)
  = snd (addUpdateDomainRecords env "AAAA"
           (snd (addUpdateDomainRecords env "A" st))).
Proof.
  unfold AddUpdateDomainRecords, bind.
  destruct (addUpdateDomainRecords env "A" st) as [u st1]; simpl.
  destruct (addUpdateDomainRecords env "AAAA" st1) as [u' st2]; reflexivity.
Qed.

Lemma AddUpdateDomainRecords_issues (st : St) :
  issues env st (snd (AddUpdateDomainRecords env st)).
Proof.
  rewrite AddUpdateDomainRecords_state.
  eapply issues_trans; apply addUpdateDomainRecords_issues.
Qed.

Lemma addUpdateDomainRecords_ttl (rt : string) (st : St) :
  writes_with_ttl st (snd (addUpdateDomainRecords env rt st)).
Proof.
  eapply writes_with_ttl_trans; [apply get_new_ip_result_ttl|].
  apply progress_ttl, addUpdateDomainRecords_progress.
Qed.

Lemma AddUpdateDomainRecords_ttl (st : St) :
  writes_with_ttl st (snd (AddUpdateDomainRecords env st)).
Proof.
  rewrite AddUpdateDomainRecords_state.
  eapply writes_with_ttl_trans; apply addUpdateDomainRecords_ttl.
Qed.



(** ** The loop body, case by case *)

Lemma request_after (params : Values) (st : St) :
  request env params st = (reply_to env params st, after_call env params st).
Proof. apply request_unfold. Qed.

Lemma process_domain_lookups (rt ip : string) (p : ptr) (st : St) :
  process_domain env rt ip p st =
  match lookups env rt p st with
  | (Err _, s) => set_status p UpdatedFailed s
  | (Ok (siteId, []), s) => create env siteId p rt ip s
  | (Ok (siteId, record0 :: _), s) => modify env siteId record0 p rt ip s
  end.
Proof.
  unfold process_domain, lookups, bind, deref.
  destruct (getSiteId env (DomainName (heap st p)) st) as [[siteId|e] s1];
    [|reflexivity].
  destruct (listRecords env siteId p rt s1) as [[[|r0 rs]|e] s2]; reflexivity.
Qed.

Lemma getSiteId_after (n : string) (st : St) :
  snd (getSiteId env n st) = after_call env (getSiteId_params n) st.
Proof. rewrite getSiteId_state, request_after; reflexivity. Qed.

Lemma listRecords_after (siteId : Z) (p : ptr) (rt : string) (st : St) :
  snd (listRecords env siteId p rt st)
  = after_call env (listRecords_params env siteId (heap st p) rt) st.
Proof. rewrite listRecords_state, request_after; reflexivity. Qed.

(** The lookups leave the struct, the caches and the domains alone and send
    the zone query, then possibly the record query, and nothing else. *)
Lemma lookups_frame (rt : string) (p : ptr) (st : St) :
  let s := snd (lookups env rt p st) in
  esa s = esa st /\ caches s = caches st /\ heap s = heap st /\
  exists calls,
    sent s = sent st
             ++ signed_call env (esa st)
                  (getSiteId_params (DomainName (heap st p))) :: calls /\
    world s = replay env (world st)
                (signed_call env (esa st)
                   (getSiteId_params (DomainName (heap st p))) :: calls) /\
    Forall (fun c => is_action "ListRecords" c = true) calls /\
    (length calls <= 1)%nat.
Proof.
  unfold lookups.
  pose proof (getSiteId_after (DomainName (heap st p)) st) as H1.
  destruct (getSiteId env (DomainName (heap st p)) st) as [[siteId|e] s1];
    simpl in H1; subst s1.
  - pose proof (listRecords_after siteId p rt
                  (after_call env (getSiteId_params (DomainName (heap st p)))
                     st)) as H2.
    destruct (listRecords env siteId p rt _) as [[rs|e] s2];
      simpl in H2; subst s2; simpl;
      (repeat split;
       exists [signed_call env (esa st)
                 (listRecords_params env siteId (heap st p) rt)];
       split; [rewrite <- app_assoc; reflexivity|];
       split; [reflexivity|];
       split; [|simpl; lia];
       constructor; [|constructor];
       rewrite (is_action_of _ _ _ _ (listRecords_params_action _ _ _));
       reflexivity).
  - simpl; repeat split.
    exists []; repeat split; [constructor | simpl; lia].
Qed.

(** The lookups succeed when [getSiteId] returns a zone and [listRecords],
    run next, returns a listing. *)
Lemma lookups_ok_iff (rt : string) (p : ptr) (st : St) (siteId : Z)
    (records : list ESARecord) :
  fst (lookups env rt p st) = Ok (siteId, records) <->
  fst (getSiteId env (DomainName (heap st p)) st) = Ok siteId /\
  fst (listRecords env siteId p rt
         (snd (getSiteId env (DomainName (heap st p)) st))) = Ok records.
Proof.
  unfold lookups.
  destruct (getSiteId env (DomainName (heap st p)) st) as [[id|e] s1]; simpl.
  - destruct (listRecords env id p rt s1) as [[rs|e] s2] eqn:E; simpl.
    + split.
      * intros H; injection H as -> ->; rewrite E; auto.
      * intros [H1 H2]; injection H1 as ->; rewrite E in H2; simpl in H2.
        injection H2 as ->; reflexivity.
    + split; [discriminate|].
      intros [H1 H2]; injection H1 as ->; rewrite E in H2; discriminate.
  - split; [discriminate|intros [H _]; discriminate].
Qed.

(** They fail when [getSiteId] returns an error, or [listRecords] does. *)
Lemma lookups_err_iff (rt : string) (p : ptr) (st : St) (e : string) :
  fst (lookups env rt p st) = Err e <->
  fst (getSiteId env (DomainName (heap st p)) st) = Err e \/
  exists siteId,
    fst (getSiteId env (DomainName (heap st p)) st) = Ok siteId /\
    fst (listRecords env siteId p rt
           (snd (getSiteId env (DomainName (heap st p)) st))) = Err e.
Proof.
  unfold lookups.
  destruct (getSiteId env (DomainName (heap st p)) st) as [[id|e1] s1]; simpl.
  - destruct (listRecords env id p rt s1) as [[rs|e2] s2] eqn:E; simpl.
    + split; [discriminate|].
      intros [H|(id' & H1 & H2)]; [discriminate|].
      injection H1 as ->; rewrite E in H2; discriminate.
    + split.
      * intros H; injection H as ->; right; exists id; rewrite E; auto.
      * intros [H|(id' & H1 & H2)]; [discriminate|].
        injection H1 as ->; rewrite E in H2; simpl in H2.
        injection H2 as ->; reflexivity.
  - split; [intros H; injection H as ->; auto|].
    intros [H|(id' & H1 & _)]; [injection H as ->; reflexivity|discriminate].
Qed.

(** Lookups that succeed log nothing. *)
Lemma lookups_ok_logs (rt : string) (p : ptr) (st : St)
    (found : Z * list ESARecord) :
  fst (lookups env rt p st) = Ok found ->
  logs (snd (lookups env rt p st)) = logs st.
Proof.
  unfold lookups.
  pose proof (getSiteId_after (DomainName (heap st p)) st) as H1.
  destruct (getSiteId env (DomainName (heap st p)) st) as [[siteId|e] s1];
    simpl in H1; subst s1; [|discriminate].
  pose proof (listRecords_after siteId p rt
                (after_call env (getSiteId_params (DomainName (heap st p)))
                   st)) as H2.
  destruct (listRecords env siteId p rt _) as [[rs|e] s2];
    simpl in H2; subst s2; [|discriminate].
  reflexivity.
Qed.

Lemma create_unfold (siteId : Z) (p : ptr) (rt ip : string) (st : St) :
  let params := create_params env (TTL (esa st)) siteId (heap st p) rt ip in
  create env siteId p rt ip st =
  set_status p (status_of_reply (reply_to env params st))
    (add_log (create_line (heap st p) ip (reply_to env params st))
       (after_call env params st)).
Proof.
  unfold create, bind, deref, get_TTL, Log; simpl.
  rewrite request_after.
  destruct (reply_to env _ st); reflexivity.
Qed.

Lemma modify_unfold (siteId : Z) (r : ESARecord) (p : ptr) (rt ip : string)
    (st : St) :
  let params := modify_params env (TTL (esa st)) siteId r (heap st p) rt ip in
  modify env siteId r p rt ip st =
  if String.eqb (Data_Value r) ip
  then (tt, add_log (LogUnchanged ip (heap st p)) st)
  else
    set_status p (status_of_reply (reply_to env params st))
      (add_log (modify_line (heap st p) ip (reply_to env params st))
         (after_call env params st)).
Proof.
  unfold modify, bind, deref, get_TTL, Log, ret; simpl.
  destruct (String.eqb (Data_Value r) ip); [reflexivity|].
  rewrite request_after.
  destruct (reply_to env _ st); reflexivity.
Qed.

Lemma is_action_excl (a b : string) (c : Call) :
  is_action a c = true -> a <> b -> is_action b c = false.
Proof.
  unfold is_action; intros Ha Hab.
  apply bool_decide_eq_true in Ha.
  apply bool_decide_eq_false; rewrite Ha; intros E; injection E; auto.
Qed.

Lemma lookup_call_not_write (c : Call) :
  is_lookup c = true -> is_write c = false.
Proof.
  unfold is_lookup, is_write; intros H.
  apply orb_true_iff in H as [H|H];
    rewrite !(is_action_excl _ _ _ H) by discriminate; reflexivity.
Qed.

(** The calls of the two lookups, as one sequence. *)
Lemma lookups_calls (rt : string) (p : ptr) (st : St) :
  exists calls,
    sent (snd (lookups env rt p st)) = sent st ++ calls /\
    world (snd (lookups env rt p st)) = replay env (world st) calls /\
    Forall (fun c => is_lookup c = true) calls /\
    Forall (fun c => is_write c = false) calls /\
    In (signed_call env (esa st) (getSiteId_params (DomainName (heap st p))))
       calls.
Proof.
  destruct (lookups_frame rt p st) as (_ & _ & _ & cs & Hs & Hw & Hl & _).
  exists (signed_call env (esa st)
            (getSiteId_params (DomainName (heap st p))) :: cs).
  assert (Forall (fun c => is_lookup c = true)
            (signed_call env (esa st)
               (getSiteId_params (DomainName (heap st p))) :: cs)) as Hall.
  { constructor; [apply lookup_call_sites|].
    eapply Forall_impl; [exact Hl|].
    intros c Hc; unfold is_lookup; rewrite Hc; apply orb_true_r. }
  repeat split; auto.
  - eapply Forall_impl; [exact Hall|]; apply lookup_call_not_write.
  - left; reflexivity.
Qed.

Lemma store_status_same (p : ptr) (s : updateStatusType) (h : ptr -> Domain) :
  UpdateStatus (store_status p s h p) = s.
Proof. unfold store_status; rewrite Nat.eqb_refl; reflexivity. Qed.

Lemma store_status_other (p q : ptr) (s : updateStatusType)
    (h : ptr -> Domain) :
  q <> p -> store_status p s h q = h q.
Proof.
  intros Hq; unfold store_status.
  destruct (Nat.eqb q p) eqn:E; [apply Nat.eqb_eq in E; contradiction|].
  reflexivity.
Qed.

Lemma process_domain_after_lookups (rt ip : string) (p : ptr) (st : St) :
  progress env (snd (lookups env rt p st))
    (snd (process_domain env rt ip p st)).
Proof.
  rewrite process_domain_lookups.
  destruct (lookups env rt p st) as [[[siteId [|r0 rs]]|e] s]; simpl.
  - apply create_progress.
  - apply modify_progress.
  - apply set_status_progress; auto.
Qed.

(** The loop body always sends the zone query of its domain. *)
Lemma process_domain_zone_query (rt ip : string) (p : ptr) (st : St) :
  exists calls,
    sent (snd (process_domain env rt ip p st)) = sent st ++ calls /\
    In (signed_call env (esa st) (getSiteId_params (DomainName (heap st p))))
       calls.
Proof.
  destruct (lookups_calls rt p st) as (cs & Hs & _ & _ & _ & Hin).
  destruct (process_domain_after_lookups rt ip p st)
    as [_ _ _ (cs' & Hs' & _)].
  exists (cs ++ cs'); split.
  - rewrite Hs', Hs, app_assoc; reflexivity.
  - apply in_or_app; left; exact Hin.
Qed.

(** The three ways the loop body can end for its domain. *)
Lemma process_domain_outcome (rt ip : string) (p : ptr) (st : St) :
  heap (snd (process_domain env rt ip p st))
  = store_status p UpdatedFailed (heap st) \/
  heap (snd (process_domain env rt ip p st))
  = store_status p UpdatedSuccess (heap st) \/
  (heap (snd (process_domain env rt ip p st)) = heap st /\
   exists siteId record0 others,
     fst (lookups env rt p st) = Ok (siteId, record0 :: others) /\
     Data_Value record0 = ip).
Proof.
  destruct (lookups_frame rt p st) as (_ & _ & Hh & _).
  rewrite process_domain_lookups.
  destruct (lookups env rt p st) as [[[siteId [|r0 rs]]|e] s]; simpl in *.
  - rewrite create_unfold; simpl; rewrite Hh.
    destruct (reply_to env _ s); auto.
  - rewrite modify_unfold.
    destruct (String.eqb (Data_Value r0) ip) eqn:E; simpl.
    + right; right; split; [exact Hh|].
      exists siteId, r0, rs; split; [reflexivity|].
      apply String.eqb_eq; exact E.
    + rewrite Hh. destruct (reply_to env _ s); auto.
  - rewrite Hh; auto.
Qed.

Lemma Init_TTL (dnsConf : DnsConfig) (c4 c6 : ptr) (st : St) :
  TTL (esa (snd (Init env dnsConf c4 c6 st)))
  = if String.eqb (conf_TTL dnsConf) "" then "30" else conf_TTL dnsConf.
Proof. reflexivity. Qed.

Lemma create_call (siteId : Z) (p : ptr) (rt ip : string) (st : St) :
  sent (snd (create env siteId p rt ip st))
  = sent st ++ [signed_call env (esa st)
                  (create_params env (TTL (esa st)) siteId (heap st p) rt ip)].
Proof. rewrite create_unfold; reflexivity. Qed.

Lemma modify_call (siteId : Z) (r : ESARecord) (p : ptr) (rt ip : string)
    (st : St) :
  Data_Value r <> ip ->
  sent (snd (modify env siteId r p rt ip st))
  = sent st ++ [signed_call env (esa st)
                  (modify_params env (TTL (esa st)) siteId r (heap st p)
                     rt ip)].
Proof.
  intros Hv; apply String.eqb_neq in Hv.
  rewrite modify_unfold, Hv; reflexivity.
Qed.

Lemma process_domain_unchanged (rt ip : string) (p : ptr) (st : St)
    (siteId : Z) (record0 : ESARecord) (others : list ESARecord) :
  fst (lookups env rt p st) = Ok (siteId, record0 :: others) ->
  Data_Value record0 = ip ->
  snd (process_domain env rt ip p st)
  = add_log (LogUnchanged ip (heap st p)) (snd (lookups env rt p st)).
Proof.
  destruct (lookups_frame rt p st) as (_ & _ & Hh & _).
  intros Hl Hv; rewrite process_domain_lookups.
  destruct (lookups env rt p st) as [r s]; simpl in *; subst r.
  rewrite modify_unfold, Hv, String.eqb_refl, Hh; reflexivity.
Qed.

(** ** The claims *)

(** C1 (amended): at any point of a pass, for a domain whose lookups succeed
    and whose first listed record already holds the current address, the loop
    body issues no CreateRecord and no UpdateRecord call, logs the no-change
    line, and writes nothing to the domain: every domain, this one included,
    keeps the status it had (the status is not set to Success). *)
Theorem unchanged_record_is_left_alone (rt ip : string) (p : ptr) (st : St)
    (siteId : Z) (record0 : ESARecord) (others : list ESARecord) :
  fst (lookups env rt p st) = Ok (siteId, record0 :: others) ->
  Data_Value record0 = ip ->
  heap (snd (process_domain env rt ip p st)) = heap st /\
  UpdateStatus (heap (snd (process_domain env rt ip p st)) p)
  = UpdateStatus (heap st p) /\
  logs (snd (process_domain env rt ip p st))
  = logs st ++ [LogUnchanged ip (heap st p)] /\
  exists calls,
    sent (snd (process_domain env rt ip p st)) = sent st ++ calls /\
    world (snd (process_domain env rt ip p st))
    = replay env (world st) calls /\
    Forall (fun c => is_write c = false) calls.
Proof.
  intros Hl Hv.
  destruct (lookups_calls rt p st) as (cs & Hs & Hw & _ & Hnw & _).
  destruct (lookups_frame rt p st) as (_ & _ & Hh & _).
  pose proof (lookups_ok_logs rt p st _ Hl) as Hlog.
  rewrite (process_domain_unchanged _ _ _ _ _ _ _ Hl Hv); simpl.
  split; [exact Hh|]. split; [rewrite Hh; reflexivity|].
  split; [rewrite Hlog; reflexivity|].
  exists cs; auto.
Qed.

(** C2 (amended): zone resolution sends one ListSites query carrying the root
    domain as SiteName with ExactMatch set to true.  It returns the error of a
    failed request, and a not-found error when the reply reports a total of
    zero or lists no site; in every other case it returns the identifier of
    the first site listed, whether or not further sites follow. *)
Theorem getSiteId_takes_first_site (n : string) (st : St) :
  getSiteId_params n !! "SiteName" = Some [n] /\
  getSiteId_params n !! "ExactMatch" = Some ["true"] /\
  snd (getSiteId env n st) = after_call env (getSiteId_params n) st /\
  fst (getSiteId env n st) =
  match reply_to env (getSiteId_params n) st with
  | Err e => Err e
  | Ok b =>
      match body_Sites b with
      | [] => Err ("site not found for domain: " +:+ n)
      | site :: _ =>
          if (body_TotalCount b =? 0)%Z
          then Err ("site not found for domain: " +:+ n)
          else Ok (SiteId site)
      end
  end.
Proof.
  split; [values_lookup|]. split; [values_lookup|].
  split; [apply getSiteId_after|].
  unfold getSiteId, bind; rewrite request_after.
  destruct (reply_to env (getSiteId_params n) st) as [b|e]; [|reflexivity].
  simpl. destruct (body_Sites b) as [|site sites]; simpl.
  - rewrite orb_true_r; reflexivity.
  - rewrite orb_false_r. destruct (body_TotalCount b =? 0)%Z; reflexivity.
Qed.


(** C4 (amended): in a pass over any list of domains, a zone-resolution or
    record-listing error for one domain sets that domain's status to Failed
    and changes nothing else in the store, sends lookups only (no create, no
    update), and the loop goes on with the domains that follow.  Each of them
    runs its own loop body, which sends its own zone query and ends with the
    domain Failed, or Success, or with the store untouched when the first
    record listed for it already holds the current address. *)
Theorem lookup_error_is_isolated (rt ip : string) (pre post : list ptr)
    (p : ptr) (st : St) (e : string) :
  fst (lookups env rt p (snd (for_domains env rt ip pre st))) = Err e ->
  let s1 := snd (for_domains env rt ip pre st) in
  let s2 := snd (process_domain env rt ip p s1) in
  heap s2 = store_status p UpdatedFailed (heap s1) /\
  (exists calls,
     sent s2 = sent s1 ++ calls /\
     Forall (fun c => is_lookup c = true) calls /\
     Forall (fun c => is_write c = false) calls) /\
  for_domains env rt ip (pre ++ p :: post) st
  = for_domains env rt ip post s2 /\
  forall (mid tail : list ptr) (q : ptr),
    post = mid ++ q :: tail ->
    let sq := snd (for_domains env rt ip mid s2) in
    let sq' := snd (process_domain env rt ip q sq) in
    for_domains env rt ip (pre ++ p :: post) st
    = for_domains env rt ip tail sq' /\
    (exists calls,
       sent sq' = sent sq ++ calls /\
       In (signed_call env (esa sq)
             (getSiteId_params (DomainName (heap sq q)))) calls) /\
    (heap sq' = store_status q UpdatedFailed (heap sq) \/
     heap sq' = store_status q UpdatedSuccess (heap sq) \/
     (heap sq' = heap sq /\
      exists siteId record0 others,
        fst (lookups env rt q sq) = Ok (siteId, record0 :: others) /\
        Data_Value record0 = ip)).
Proof.
  intros Herr s1 s2.
  assert (for_domains env rt ip (pre ++ p :: post) st
          = for_domains env rt ip post s2) as Hloop.
  { rewrite for_domains_app, for_domains_cons; reflexivity. }
  split; [|split; [|split; [exact Hloop|]]].
  - subst s2; rewrite process_domain_lookups.
    destruct (lookups_frame rt p s1) as (_ & _ & Hh & _).
    fold s1 in Herr.
    destruct (lookups env rt p s1) as [r s]; simpl in *; subst r; simpl.
    rewrite Hh; reflexivity.
  - destruct (lookups_calls rt p s1) as (cs & Hs & _ & Hl & Hnw & _).
    exists cs; repeat split; auto.
    subst s2; rewrite process_domain_lookups.
    fold s1 in Herr.
    destruct (lookups env rt p s1) as [r s]; simpl in *; subst r; simpl.
    exact Hs.
  - intros mid tail q -> sq sq'.
    split; [|split].
    + rewrite Hloop, for_domains_app, for_domains_cons; reflexivity.
    + apply process_domain_zone_query.
    + apply process_domain_outcome.
Qed.


(** C6: at any point of a pass, for a domain whose listing returns two or
    more records, the loop body is [modify] on the first record.  After the
    lookups it sends nothing when that record already holds the address, and
    otherwise exactly one signed UpdateRecord whose RecordId is the first
    record's; no call is made for the other records. *)
Theorem only_first_record_is_used (rt ip : string) (p : ptr) (st : St)
    (siteId : Z) (record0 record1 : ESARecord) (others : list ESARecord) :
  fst (lookups env rt p st) = Ok (siteId, record0 :: record1 :: others) ->
  let s := snd (lookups env rt p st) in
  let c := signed_call env (esa st)
             (modify_params env (TTL (esa st)) siteId record0 (heap st p)
                rt ip) in
  let st' := snd (process_domain env rt ip p st) in
  process_domain env rt ip p st = modify env siteId record0 p rt ip s /\
  (exists calls,
     sent s = sent st ++ calls /\
     Forall (fun c' => is_lookup c' = true) calls) /\
  (Data_Value record0 = ip ->
   st' = add_log (LogUnchanged ip (heap st p)) s) /\
  (Data_Value record0 <> ip ->
   sent st' = sent s ++ [c] /\
   is_action "UpdateRecord" c = true /\
   call_params c !! "RecordId" = Some [FormatInt (RecordId record0)] /\
   call_params c !! "Data" = Some [data_json env ip] /\
   heap st' = store_status p
                (status_of_reply (fst (httpGet env (call_query c) (world s))))
                (heap st)).
Proof.
  intros Hl s c st'.
  destruct (lookups_calls rt p st) as (cs & Hs & _ & Hlk & _ & _).
  destruct (lookups_frame rt p st) as (He & _ & Hh & _).
  assert (process_domain env rt ip p st = modify env siteId record0 p rt ip s)
    as Hstep.
  { subst s; rewrite process_domain_lookups.
    destruct (lookups env rt p st) as [r s0]; simpl in *; subst r.
    reflexivity. }
  split; [exact Hstep|]. split; [exists cs; auto|]. split.
  - intros Hv; subst st'; rewrite Hstep, modify_unfold, Hv, String.eqb_refl.
    fold s in Hh; rewrite Hh; reflexivity.
  - intros Hv; apply String.eqb_neq in Hv.
    subst st'; rewrite Hstep, modify_unfold, Hv.
    fold s in He, Hh; simpl; rewrite !He, !Hh.
    split; [reflexivity|]. split.
    { subst c.
      rewrite (is_action_of _ _ _ _ (modify_params_action _ _ _ _ _ _)).
      reflexivity. }
    split; [subst c; simpl; values_lookup|].
    split; [subst c; simpl; values_lookup|].
    unfold reply_to; rewrite He; reflexivity.
Qed.

(** C7: [Init] sets the adapter's TTL to the configured TTL, and to "30" when
    the configured TTL is the empty string.  The CreateRecord call of [create]
    and the UpdateRecord call of [modify] carry the adapter's TTL as their TTL
    parameter, and so does every create or update call of the passes run
    after [Init]. *)
Theorem writes_carry_configured_ttl (dnsConf : DnsConfig) (c4 c6 : ptr)
    (st : St) :
  let ttl := if String.eqb (conf_TTL dnsConf) "" then "30"
             else conf_TTL dnsConf in
  let st1 := snd (Init env dnsConf c4 c6 st) in
  TTL (esa st1) = ttl /\
  (forall siteId p rt ip (s : St),
     exists c,
       sent (snd (create env siteId p rt ip s)) = sent s ++ [c] /\
       is_action "CreateRecord" c = true /\
       call_params c !! "TTL" = Some [TTL (esa s)]) /\
  (forall siteId r p rt ip (s : St),
     sent (snd (modify env siteId r p rt ip s)) = sent s \/
     exists c,
       sent (snd (modify env siteId r p rt ip s)) = sent s ++ [c] /\
       is_action "UpdateRecord" c = true /\
       call_params c !! "TTL" = Some [TTL (esa s)]) /\
  exists calls,
    sent (snd (AddUpdateDomainRecords env st1)) = sent st1 ++ calls /\
    Forall (fun c => is_write c = true -> call_params c !! "TTL" = Some [ttl])
      calls.
Proof.
  intros ttl st1.
  split; [apply Init_TTL|]. split; [|split].
  - intros siteId p rt ip s; eexists; split; [apply create_call|].
    split; [|simpl; apply create_params_ttl].
    rewrite (is_action_of _ _ _ _ (create_params_action _ _ _ _ _)).
    reflexivity.
  - intros siteId r p rt ip s.
    destruct (String.eqb (Data_Value r) ip) eqn:E.
    + left; rewrite modify_unfold, E; reflexivity.
    + right; apply String.eqb_neq in E.
      eexists; split; [apply modify_call; exact E|].
      split; [|simpl; apply modify_params_ttl].
      rewrite (is_action_of _ _ _ _ (modify_params_action _ _ _ _ _ _)).
      reflexivity.
  - destruct (AddUpdateDomainRecords_ttl st1) as (_ & cs & Hs & Httl).
    exists cs; split; [exact Hs|].
    subst st1 ttl; rewrite Init_TTL in Httl; exact Httl.
Qed.


(** C9: [request] signs the parameters with the account identifier and secret
    and sends the signed query.  Each of the four operations, the loop body,
    the pass of one family and the two passes together reach the provider
    only through it: the provider they leave is the one that served exactly
    the recorded calls, each of which is signed with the adapter's
    credentials, and the credentials do not change on the way. *)
Theorem every_request_is_signed (st : St) :
  (forall params,
     request env params st
     = (fst (httpGet env
               (AliyunSigner env (ID (DNS (esa st))) (Secret (DNS (esa st)))
                  params) (world st)),
        after_call env params st) /\
     issues env st (after_call env params st)) /\
  (forall n, issues env st (snd (getSiteId env n st))) /\
  (forall siteId p rt, issues env st (snd (listRecords env siteId p rt st))) /\
  (forall siteId p rt ip, issues env st (snd (create env siteId p rt ip st))) /\
  (forall siteId r p rt ip,
     issues env st (snd (modify env siteId r p rt ip st))) /\
  (forall rt ip p, issues env st (snd (process_domain env rt ip p st))) /\
  (forall rt, issues env st (snd (addUpdateDomainRecords env rt st))) /\
  issues env st (snd (AddUpdateDomainRecords env st)).
Proof.
  refine (conj _ (conj _ (conj _ (conj _ (conj _ (conj _ (conj _ _))))))).
  - intros params; split; [apply request_after|].
    split; [reflexivity|].
    exists [signed_call env (esa st) params].
    split; [reflexivity|]. split; [repeat constructor|reflexivity].
  - intros n; apply progress_issues, getSiteId_progress.
  - intros siteId p rt; apply progress_issues, listRecords_progress.
  - intros siteId p rt ip; apply progress_issues, create_progress.
  - intros siteId r p rt ip; apply progress_issues, modify_progress.
  - intros rt ip p; apply progress_issues, process_domain_progress.
  - intros rt; apply addUpdateDomainRecords_issues.
  - apply AddUpdateDomainRecords_issues.
Qed.

(** C10: the loop of a pass, and so the pass once the address is obtained,
    leaves the name, subdomain and custom parameters of every domain as they
    were and leaves its status as it was or at UpdatedSuccess or
    UpdatedFailed.  One run of the loop body stores UpdatedFailed or
    UpdatedSuccess in its own domain or stores nothing; [modify] on a record
    that already holds the address only adds the no-change line to the log,
    so the domain of such a record keeps the status it had. *)
Theorem pass_writes_status_only (rt ip : string) (ds : list ptr) (st : St) :
  (forall q,
     status_only (heap st q) (heap (snd (for_domains env rt ip ds st)) q)) /\
  (forall q,
     status_only (heap (snd (get_new_ip_result env rt st)) q)
       (heap (snd (addUpdateDomainRecords env rt st)) q)) /\
  (forall p,
     heap (snd (process_domain env rt ip p st))
     = store_status p UpdatedFailed (heap st) \/
     heap (snd (process_domain env rt ip p st))
     = store_status p UpdatedSuccess (heap st) \/
     heap (snd (process_domain env rt ip p st)) = heap st) /\
  (forall siteId record p,
     Data_Value record = ip ->
     modify env siteId record p rt ip st
     = (tt, add_log (LogUnchanged ip (heap st p)) st)) /\
  (forall p siteId record0 others,
     fst (lookups env rt p st) = Ok (siteId, record0 :: others) ->
     Data_Value record0 = ip ->
     heap (snd (process_domain env rt ip p st)) = heap st /\
     UpdateStatus (heap (snd (process_domain env rt ip p st)) p)
     = UpdateStatus (heap st p)).
Proof.
  refine (conj _ (conj _ (conj _ (conj _ _)))).
  - apply for_domains_progress.
  - apply addUpdateDomainRecords_progress.
  - intros p.
    destruct (process_domain_outcome rt ip p st) as [H|[H|[H _]]]; auto.
  - intros siteId record p Hv.
    rewrite modify_unfold, Hv, String.eqb_refl; reflexivity.
  - intros p siteId record0 others Hl Hv.
    rewrite (process_domain_unchanged _ _ _ _ _ _ _ Hl Hv).
    destruct (lookups_frame rt p st) as (_ & _ & Hh & _).
    simpl; rewrite Hh; auto.
Qed.

End Properties.

(** ** Whole runs: the loop body in closed form *)

Section Coverage.

Context {World IpCache DomainSet : Type}.
Variable env : Collaborators World IpCache DomainSet.

Abbreviation St := (State World IpCache DomainSet).

Ltac params_lookup :=
  unfold zone_call, listing_call, create_call_of, update_call_of,
    getSiteId_params, listRecords_params, create_params, modify_params,
    Values_Set; simpl;
  repeat first
    [ rewrite lookup_insert_eq
    | rewrite lookup_insert_ne by (intro; discriminate) ];
  try reflexivity.

Lemma process_domain_result (rt ip : string) (p : ptr) (st : St) :
  snd (process_domain env rt ip p st) = body_result env rt ip p st.
Proof.
  unfold process_domain, body_result, classify, bind, deref.
  pose proof (getSiteId_after env (DomainName (heap st p)) st) as H1.
  destruct (getSiteId env (DomainName (heap st p)) st) as [[siteId|e] s1];
    simpl in H1; subst s1.
  - pose proof (listRecords_after env siteId p rt
                  (after_call env (getSiteId_params (DomainName (heap st p)))
                     st)) as H2.
    destruct (listRecords env siteId p rt _) as [[[|r0 rs]|e] s2];
      simpl in H2; subst s2; simpl.
    + rewrite create_unfold; reflexivity.
    + rewrite modify_unfold.
      destruct (String.eqb (Data_Value r0) ip); reflexivity.
    + reflexivity.
  - reflexivity.
Qed.

Lemma new_calls_app (st st' : St) (calls : list Call) :
  sent st' = sent st ++ calls -> new_calls st st' = calls.
Proof. unfold new_calls; intros ->; apply drop_app_length. Qed.

Lemma new_logs_app (st st' : St) (lines : list LogLine) :
  logs st' = logs st ++ lines -> new_logs st st' = lines.
Proof. unfold new_logs; intros ->; apply drop_app_length. Qed.

(** The components of the state the loop body leaves. *)
Lemma body_result_parts (rt ip : string) (p : ptr) (st : St) :
  let st' := body_result env rt ip p st in
  esa st' = esa st /\ caches st' = caches st /\
  sent st' = sent st ++ body_calls env rt ip p st /\
  world st' = replay env (world st) (body_calls env rt ip p st) /\
  logs st' = logs st ++ [body_line env rt ip p st] /\
  heap st' = match body_store env rt ip p st with
             | Some s => store_status p s (heap st)
             | None => heap st
             end.
Proof.
  unfold body_result, body_calls, body_line, body_store, write_reply.
  destruct (classify env rt ip p st); simpl;
    rewrite <- ?app_assoc; repeat split; reflexivity.
Qed.

Lemma process_domain_parts (rt ip : string) (p : ptr) (st : St) :
  let st' := snd (process_domain env rt ip p st) in
  esa st' = esa st /\ caches st' = caches st /\
  sent st' = sent st ++ body_calls env rt ip p st /\
  world st' = replay env (world st) (body_calls env rt ip p st) /\
  logs st' = logs st ++ [body_line env rt ip p st] /\
  heap st' = match body_store env rt ip p st with
             | Some s => store_status p s (heap st)
             | None => heap st
             end.
Proof. rewrite process_domain_result; apply body_result_parts. Qed.

Lemma process_domain_new_calls (rt ip : string) (p : ptr) (st : St) :
  new_calls st (snd (process_domain env rt ip p st))
  = body_calls env rt ip p st.
Proof.
  apply new_calls_app.
  destruct (process_domain_parts rt ip p st) as (_ & _ & H & _); exact H.
Qed.

Lemma zone_call_action (p : ptr) (st : St) :
  is_action "ListSites" (zone_call env p st) = true.
Proof.
  unfold zone_call.
  rewrite (is_action_of _ _ _ _ _ (getSiteId_params_action _)); reflexivity.
Qed.

Lemma listing_call_action (rt : string) (siteId : Z) (p : ptr) (st : St) :
  is_action "ListRecords" (listing_call env rt siteId p st) = true.
Proof.
  unfold listing_call.
  rewrite (is_action_of _ _ _ _ _ (listRecords_params_action _ _ _ _)).
  reflexivity.
Qed.

Lemma create_call_of_action (rt ip : string) (siteId : Z) (p : ptr)
    (st : St) :
  is_action "CreateRecord" (create_call_of env rt ip siteId p st) = true.
Proof.
  unfold create_call_of.
  rewrite (is_action_of _ _ _ _ _ (create_params_action _ _ _ _ _ _)).
  reflexivity.
Qed.

Lemma update_call_of_action (rt ip : string) (siteId : Z) (r : ESARecord)
    (p : ptr) (st : St) :
  is_action "UpdateRecord" (update_call_of env rt ip siteId r p st) = true.
Proof.
  unfold update_call_of.
  rewrite (is_action_of _ _ _ _ _ (modify_params_action _ _ _ _ _ _ _)).
  reflexivity.
Qed.

Lemma body_calls_shape (rt ip : string) (p : ptr) (st : St) :
  body_shape (body_calls env rt ip p st) = true.
Proof.
  unfold body_calls, body_shape, is_write.
  destruct (classify env rt ip p st);
    rewrite ?zone_call_action, ?listing_call_action, ?create_call_of_action,
      ?update_call_of_action, ?orb_true_r; reflexivity.
Qed.

Lemma classify_spec (rt ip : string) (p : ptr) (st : St) :
  classify env rt ip p st =
  match fst (getSiteId env (DomainName (heap st p)) st) with
  | Err e => ZoneFailed e
  | Ok siteId =>
      match fst (listRecords env siteId p rt
                   (snd (getSiteId env (DomainName (heap st p)) st))) with
      | Err e => ListingFailed siteId e
      | Ok [] => Creates siteId
      | Ok (record0 :: _) =>
          if String.eqb (Data_Value record0) ip
          then Unchanged siteId record0
          else Updates siteId record0
      end
  end.
Proof.
  unfold classify.
  destruct (getSiteId env (DomainName (heap st p)) st) as [[siteId|e] s1];
    reflexivity.
Qed.

Lemma process_domain_new_logs (rt ip : string) (p : ptr) (st : St) :
  new_logs st (snd (process_domain env rt ip p st))
  = [body_line env rt ip p st].
Proof.
  apply new_logs_app.
  destruct (process_domain_parts rt ip p st) as (_ & _ & _ & _ & H & _).
  exact H.
Qed.

Lemma process_domain_heap (rt ip : string) (p : ptr) (st : St) :
  heap (snd (process_domain env rt ip p st))
  = match body_store env rt ip p st with
    | Some s => store_status p s (heap st)
    | None => heap st
    end.
Proof.
  destruct (process_domain_parts rt ip p st) as (_ & _ & _ & _ & _ & H).
  exact H.
Qed.

(** ** Properties of the loop body *)

(** X1: when zone resolution fails for a domain, the loop body sends the zone
    query and nothing else (the records are not listed), logs the failure
    with the root domain and the error, and sets the domain to Failed. *)
Theorem zone_error_skips_listing (rt ip : string) (p : ptr) (st : St)
    (e : string) :
  fst (getSiteId env (DomainName (heap st p)) st) = Err e ->
  new_calls st (snd (process_domain env rt ip p st)) = [zone_call env p st] /\
  new_logs st (snd (process_domain env rt ip p st))
  = [LogSiteIdFailed (DomainName (heap st p)) e] /\
  heap (snd (process_domain env rt ip p st))
  = store_status p UpdatedFailed (heap st) /\
  UpdateStatus (heap (snd (process_domain env rt ip p st)) p) = UpdatedFailed.
Proof.
  intros Hz.
  rewrite process_domain_new_calls, process_domain_new_logs,
    process_domain_heap.
  unfold body_calls, body_line, body_store.
  rewrite classify_spec, Hz; simpl.
  repeat split; apply store_status_same.
Qed.

(** X2: when the zone resolves and the record listing fails, the loop body
    sends the zone query and the record query and no write, logs the failure
    with the full domain name and the error, and sets the domain to
    Failed. *)
Theorem listing_error_skips_write (rt ip : string) (p : ptr) (st : St)
    (siteId : Z) (e : string) :
  fst (getSiteId env (DomainName (heap st p)) st) = Ok siteId ->
  fst (listRecords env siteId p rt
         (snd (getSiteId env (DomainName (heap st p)) st))) = Err e ->
  new_calls st (snd (process_domain env rt ip p st))
  = [zone_call env p st; listing_call env rt siteId p st] /\
  new_logs st (snd (process_domain env rt ip p st))
  = [LogListFailed (GetFullDomain env (heap st p)) e] /\
  heap (snd (process_domain env rt ip p st))
  = store_status p UpdatedFailed (heap st) /\
  UpdateStatus (heap (snd (process_domain env rt ip p st)) p) = UpdatedFailed.
Proof.
  intros Hz Hl.
  rewrite process_domain_new_calls, process_domain_new_logs,
    process_domain_heap.
  unfold body_calls, body_line, body_store.
  rewrite classify_spec, Hz, Hl; simpl.
  repeat split; apply store_status_same.
Qed.


(** X4: the calls of one loop body are a zone query, or a zone query and a
    record query, or these two followed by one create or update: a record
    query is never sent without the zone query before it, a write never
    without both, and no body sends more than three calls or more than one
    write. *)
Theorem body_calls_are_ordered (rt ip : string) (p : ptr) (st : St) :
  body_shape (new_calls st (snd (process_domain env rt ip p st))) = true.
Proof. rewrite process_domain_new_calls; apply body_calls_shape. Qed.

(** X5: when the loop body sends a write, the write names the zone, the
    record name and the record type of the record query sent just before it,
    and that zone is the one the zone query of this body resolved for the
    root domain. *)
Theorem write_targets_what_was_listed (rt ip : string) (p : ptr) (st : St)
    (c1 c2 c3 : Call) :
  new_calls st (snd (process_domain env rt ip p st)) = [c1; c2; c3] ->
  call_params c1 !! "SiteName" = Some [DomainName (heap st p)] /\
  (exists siteId,
     fst (getSiteId env (DomainName (heap st p)) st) = Ok siteId /\
     call_params c2 !! "SiteId" = Some [FormatInt siteId] /\
     call_params c3 !! "SiteId" = Some [FormatInt siteId]) /\
  call_params c2 !! "RecordName" = Some [GetFullDomain env (heap st p)] /\
  call_params c3 !! "RecordName" = Some [GetFullDomain env (heap st p)] /\
  call_params c2 !! "Type" = Some [rt] /\
  call_params c3 !! "Type" = Some [rt].
Proof.
  rewrite process_domain_new_calls; unfold body_calls.
  rewrite classify_spec.
  destruct (fst (getSiteId env (DomainName (heap st p)) st))
    as [siteId|e]; [|discriminate].
  destruct (fst (listRecords env siteId p rt _)) as [[|r0 rs]|e];
    [|destruct (String.eqb (Data_Value r0) ip)|]; try discriminate;
    intros H; injection H as <- <- <-;
    (split; [simpl; params_lookup|]);
    (split; [exists siteId; split; [reflexivity|];
             split; simpl; params_lookup|]);
    repeat split; simpl; params_lookup.
Qed.

(** X6: the loop body of a domain leaves every other domain object exactly
    as it was. *)
Theorem body_leaves_other_domains (rt ip : string) (p q : ptr) (st : St) :
  q <> p ->
  heap (snd (process_domain env rt ip p st)) q = heap st q.
Proof.
  intros Hq; rewrite process_domain_heap.
  destruct (body_store env rt ip p st); [|reflexivity].
  apply store_status_other; exact Hq.
Qed.

(** ** Properties of a pass *)

Lemma for_domains_sent (rt ip : string) (ds : list ptr) (st : St) :
  sent (snd (for_domains env rt ip ds st))
  = sent st ++ pass_calls env rt ip ds st.
Proof.
  revert st; induction ds as [|p ds IH]; intros st.
  - simpl; rewrite app_nil_r; reflexivity.
  - rewrite for_domains_cons, IH; simpl.
    destruct (process_domain_parts rt ip p st) as (_ & _ & H & _).
    rewrite H, app_assoc; reflexivity.
Qed.

Lemma for_domains_logs (rt ip : string) (ds : list ptr) (st : St) :
  logs (snd (for_domains env rt ip ds st))
  = logs st ++ pass_lines env rt ip ds st.
Proof.
  revert st; induction ds as [|p ds IH]; intros st.
  - simpl; rewrite app_nil_r; reflexivity.
  - rewrite for_domains_cons, IH; simpl.
    destruct (process_domain_parts rt ip p st) as (_ & _ & _ & _ & H & _).
    rewrite H, <- app_assoc; reflexivity.
Qed.

Lemma for_domains_new_calls (rt ip : string) (ds : list ptr) (st : St) :
  new_calls st (snd (for_domains env rt ip ds st))
  = pass_calls env rt ip ds st.
Proof. apply new_calls_app, for_domains_sent. Qed.

Lemma for_domains_new_logs (rt ip : string) (ds : list ptr) (st : St) :
  new_logs st (snd (for_domains env rt ip ds st))
  = pass_lines env rt ip ds st.
Proof. apply new_logs_app, for_domains_logs. Qed.

Lemma count_writes_app (cs1 cs2 : list Call) :
  count_writes (cs1 ++ cs2) = count_writes cs1 + count_writes cs2.
Proof. unfold count_writes; rewrite List.filter_app, length_app; reflexivity. Qed.

Lemma zone_action_not_write (c : Call) :
  is_action "ListSites" c = true -> is_write c = false.
Proof.
  intros H; apply lookup_call_not_write; unfold is_lookup; rewrite H.
  reflexivity.
Qed.

Lemma listing_action_not_write (c : Call) :
  is_action "ListRecords" c = true -> is_write c = false.
Proof.
  intros H; apply lookup_call_not_write; unfold is_lookup; rewrite H.
  apply orb_true_r.
Qed.

Lemma body_shape_bounds (calls : list Call) :
  body_shape calls = true ->
  1 <= length calls <= 3 /\ count_writes calls <= 1.
Proof.
  unfold body_shape, count_writes.
  destruct calls as [|c1 [|c2 [|c3 [|c4 cs]]]]; try discriminate; intros H.
  - simpl; rewrite (zone_action_not_write _ H); simpl; lia.
  - apply andb_true_iff in H as [H1 H2].
    simpl; rewrite (zone_action_not_write _ H1),
      (listing_action_not_write _ H2); simpl; lia.
  - apply andb_true_iff in H as [H12 H3].
    apply andb_true_iff in H12 as [H1 H2].
    simpl; rewrite (zone_action_not_write _ H1),
      (listing_action_not_write _ H2), H3; simpl; lia.
Qed.

(** X7: a pass over a list of domains sends at least one and at most three
    requests per listed domain, and at most one create or update per listed
    domain: nothing is retried within a pass. *)
Theorem pass_request_bounds (rt ip : string) (ds : list ptr) (st : St) :
  length ds <= length (new_calls st (snd (for_domains env rt ip ds st)))
  <= 3 * length ds /\
  count_writes (new_calls st (snd (for_domains env rt ip ds st)))
  <= length ds.
Proof.
  rewrite for_domains_new_calls.
  revert st; induction ds as [|p ds IH]; intros st; simpl.
  - unfold count_writes; simpl; lia.
  - rewrite length_app, count_writes_app.
    destruct (body_shape_bounds _ (body_calls_shape rt ip p st)) as [Hb Hw].
    specialize (IH (snd (process_domain env rt ip p st))).
    lia.
Qed.

(** X8: each loop body logs exactly one line, whatever its outcome, and so a
    pass logs exactly one line per listed domain. *)
Theorem pass_logs_one_line_per_domain (rt ip : string) (ds : list ptr)
    (st : St) :
  length (new_logs st (snd (for_domains env rt ip ds st))) = length ds /\
  forall p, length (new_logs st (snd (process_domain env rt ip p st))) = 1.
Proof.
  split; [|intros p; rewrite process_domain_new_logs; reflexivity].
  rewrite for_domains_new_logs.
  revert st; induction ds as [|p ds IH]; intros st; simpl; auto.
Qed.

Lemma body_calls_typed (rt ip : string) (p : ptr) (st : St) :
  Forall (typed_as rt) (body_calls env rt ip p st).
Proof.
  unfold body_calls.
  destruct (classify env rt ip p st);
    (constructor; [left; apply zone_call_action|]);
    repeat (constructor; [right; params_lookup|]);
    constructor.
Qed.

Lemma pass_calls_typed (rt ip : string) (ds : list ptr) (st : St) :
  Forall (typed_as rt) (pass_calls env rt ip ds st).
Proof.
  revert st; induction ds as [|p ds IH]; intros st; simpl.
  - constructor.
  - apply Forall_app; split; [apply body_calls_typed|apply IH].
Qed.

Lemma get_new_ip_result_sent (rt : string) (st : St) :
  sent (snd (get_new_ip_result env rt st)) = sent st /\
  logs (snd (get_new_ip_result env rt st)) = logs st /\
  world (snd (get_new_ip_result env rt st)) = world st.
Proof.
  unfold get_new_ip_result.
  destruct (GetNewIpResult env rt (mem_of st)); simpl; auto.
Qed.

(** The calls of the pass of one family: none without an address, those of
    the loop otherwise. *)
Lemma addUpdateDomainRecords_new_calls (rt : string) (st : St) :
  new_calls st (snd (addUpdateDomainRecords env rt st))
  = let r := get_new_ip_result env rt st in
    if String.eqb (fst (fst r)) "" then []
    else pass_calls env rt (fst (fst r)) (snd (fst r)) (snd r).
Proof.
  apply new_calls_app.
  rewrite addUpdateDomainRecords_unfold.
  destruct (get_new_ip_result_sent rt st) as (Hs & _ & _).
  cbv zeta.
  destruct (String.eqb _ ""); simpl.
  - rewrite Hs, app_nil_r; reflexivity.
  - rewrite for_domains_sent, Hs; reflexivity.
Qed.

Lemma addUpdateDomainRecords_typed (rt : string) (st : St) :
  Forall (typed_as rt) (new_calls st (snd (addUpdateDomainRecords env rt st))).
Proof.
  rewrite addUpdateDomainRecords_new_calls; cbv zeta.
  destruct (String.eqb _ ""); [constructor|apply pass_calls_typed].
Qed.

(** X9: in the pass of one address family, every request other than a zone
    query carries that family's record type as its Type parameter: the pass
    never lists, creates or updates records of another type. *)
Theorem pass_keeps_to_its_record_type (rt : string) (st : St) :
  Forall (typed_as rt) (new_calls st (snd (addUpdateDomainRecords env rt st))).
Proof. apply addUpdateDomainRecords_typed. Qed.

Lemma addUpdateDomainRecords_sent (rt : string) (st : St) :
  sent (snd (addUpdateDomainRecords env rt st))
  = sent st ++ new_calls st (snd (addUpdateDomainRecords env rt st)).
Proof.
  destruct (addUpdateDomainRecords_issues env rt st) as (_ & cs & Hs & _).
  rewrite (new_calls_app _ _ _ Hs); exact Hs.
Qed.

(** X10: [AddUpdateDomainRecords] runs the pass for A records to its end,
    then the pass for AAAA records on the state the first pass left, and
    returns the [Domains] struct of the final state.  Its requests are those
    of the first pass, followed by those of the second. *)
Theorem both_passes_in_sequence (st : St) :
  let sA := snd (addUpdateDomainRecords env "A" st) in
  let s6 := snd (addUpdateDomainRecords env "AAAA" sA) in
  AddUpdateDomainRecords env st = (Domains (esa s6), s6) /\
  new_calls st s6 = new_calls st sA ++ new_calls sA s6 /\
  Forall (typed_as "A") (new_calls st sA) /\
  Forall (typed_as "AAAA") (new_calls sA s6).
Proof.
  intros sA s6.
  split; [|split; [|split]].
  - unfold AddUpdateDomainRecords, bind; subst s6 sA.
    destruct (addUpdateDomainRecords env "A" st) as [u s1]; simpl.
    destruct (addUpdateDomainRecords env "AAAA" s1) as [u' s2]; reflexivity.
  - apply new_calls_app; subst s6.
    rewrite addUpdateDomainRecords_sent; fold sA.
    subst sA; rewrite addUpdateDomainRecords_sent at 1.
    rewrite app_assoc; reflexivity.
  - apply addUpdateDomainRecords_typed.
  - apply addUpdateDomainRecords_typed.
Qed.

Lemma process_domain_other (rt ip : string) (p q : ptr) (st : St) :
  q <> p -> heap (snd (process_domain env rt ip p st)) q = heap st q.
Proof.
  intros Hq; rewrite process_domain_heap.
  destruct (body_store env rt ip p st); [|reflexivity].
  apply store_status_other; exact Hq.
Qed.

Lemma for_domains_other (rt ip : string) (ds : list ptr) (q : ptr) (st : St) :
  ~ In q ds -> heap (snd (for_domains env rt ip ds st)) q = heap st q.
Proof.
  revert st; induction ds as [|p ds IH]; intros st Hq; [reflexivity|].
  rewrite for_domains_cons, IH by (intros H; apply Hq; right; exact H).
  apply process_domain_other; intros ->; apply Hq; left; reflexivity.
Qed.

(** X11: a pass leaves every domain object that is not in its list exactly as
    it was, and the object of a listed domain is, after the pass, what the
    loop body of its last occurrence in the list left: the bodies of the
    domains after it do not touch it. *)
Theorem status_is_owned_by_own_body (rt ip : string) (pre post : list ptr)
    (p : ptr) (st : St) :
  ~ In p post ->
  heap (snd (for_domains env rt ip (pre ++ p :: post) st)) p
  = heap (snd (process_domain env rt ip p
                 (snd (for_domains env rt ip pre st)))) p /\
  forall q, ~ In q (pre ++ p :: post) ->
            heap (snd (for_domains env rt ip (pre ++ p :: post) st)) q
            = heap st q.
Proof.
  intros Hp; split.
  - rewrite for_domains_app, for_domains_cons.
    apply for_domains_other; exact Hp.
  - intros q Hq; apply for_domains_other; exact Hq.
Qed.

Lemma all_failed_cons (p : ptr) (ds : list ptr) (h : ptr -> Domain) :
  all_failed (p :: ds) h = all_failed ds (store_status p UpdatedFailed h).
Proof. reflexivity. Qed.

Lemma all_failed_name (ds : list ptr) (h : ptr -> Domain) (q : ptr) :
  DomainName (all_failed ds h q) = DomainName (h q).
Proof.
  revert h; induction ds as [|p ds IH]; intros h; [reflexivity|].
  rewrite all_failed_cons, IH; unfold store_status.
  destruct (Nat.eqb q p); reflexivity.
Qed.

Lemma all_failed_keeps (ds : list ptr) (h : ptr -> Domain) (q : ptr) :
  UpdateStatus (h q) = UpdatedFailed ->
  UpdateStatus (all_failed ds h q) = UpdatedFailed.
Proof.
  revert h; induction ds as [|p ds IH]; intros h Hq; [exact Hq|].
  rewrite all_failed_cons; apply IH; unfold store_status.
  destruct (Nat.eqb q p); [reflexivity|exact Hq].
Qed.

Lemma all_failed_status (ds : list ptr) (h : ptr -> Domain) (q : ptr) :
  In q ds -> UpdateStatus (all_failed ds h q) = UpdatedFailed.
Proof.
  revert h; induction ds as [|p ds IH]; intros h Hq; [destruct Hq|].
  rewrite all_failed_cons.
  destruct (Nat.eq_dec q p) as [->|Hne].
  - apply all_failed_keeps, store_status_same.
  - apply IH; destruct Hq as [->|Hq]; [contradiction|exact Hq].
Qed.

Lemma getSiteId_down (n : string) (st : St) :
  (forall q w, exists e, fst (httpGet env q w) = Err e) ->
  exists e, fst (getSiteId env n st) = Err e.
Proof.
  intros Hdown; unfold getSiteId, bind; rewrite request_after.
  unfold reply_to.
  destruct (Hdown (call_query (signed_call env (esa st) (getSiteId_params n)))
              (world st)) as [e He].
  rewrite He; exists e; reflexivity.
Qed.

Lemma for_domains_down (rt ip : string) (ds : list ptr) (st : St) :
  (forall q w, exists e, fst (httpGet env q w) = Err e) ->
  heap (snd (for_domains env rt ip ds st)) = all_failed ds (heap st) /\
  pass_calls env rt ip ds st = map (fun p => zone_call env p st) ds.
Proof.
  intros Hdown; revert st; induction ds as [|p ds IH]; intros st.
  - split; reflexivity.
  - destruct (getSiteId_down (DomainName (heap st p)) st Hdown) as [e He].
    destruct (process_domain_parts rt ip p st) as (Hesa & _ & _ & _ & _ & Hh).
    assert (classify env rt ip p st = ZoneFailed e) as Hc
      by (rewrite classify_spec, He; reflexivity).
    unfold body_store in Hh; rewrite Hc in Hh.
    destruct (IH (snd (process_domain env rt ip p st))) as [IHh IHc].
    rewrite for_domains_cons; split.
    + rewrite IHh, Hh; reflexivity.
    + simpl; unfold body_calls at 1; rewrite Hc, IHc; simpl; f_equal.
      apply map_ext; intros q; unfold zone_call.
      rewrite Hesa, Hh; unfold store_status.
      destruct (Nat.eqb q p); reflexivity.
Qed.

(** X12: when the provider cannot be reached (every request fails), a pass
    sends exactly one request per listed domain, its zone query, sends no
    record query and no write, and leaves every listed domain Failed. *)
Theorem unreachable_provider_fails_every_domain (rt ip : string)
    (ds : list ptr) (st : St) :
  (forall q w, exists e, fst (httpGet env q w) = Err e) ->
  new_calls st (snd (for_domains env rt ip ds st))
  = map (fun p => zone_call env p st) ds /\
  heap (snd (for_domains env rt ip ds st)) = all_failed ds (heap st) /\
  forall p, In p ds ->
            UpdateStatus (heap (snd (for_domains env rt ip ds st)) p)
            = UpdatedFailed.
Proof.
  intros Hdown.
  destruct (for_domains_down rt ip ds st Hdown) as [Hh Hc].
  rewrite for_domains_new_calls, Hh.
  split; [exact Hc|]. split; [reflexivity|].
  intros p Hp; apply all_failed_status; exact Hp.
Qed.

Lemma record_current_classify (rt ip : string) (p : ptr) (st : St) :
  record_current env rt ip p st = true ->
  exists siteId record0,
    classify env rt ip p st = Unchanged siteId record0.
Proof.
  unfold record_current; intros H.
  destruct (fst (lookups env rt p st)) as [[siteId [|r0 rs]]|e] eqn:E;
    try discriminate.
  apply lookups_ok_iff in E as [Hz Hl].
  exists siteId, r0; rewrite classify_spec, Hz, Hl, H; reflexivity.
Qed.

Lemma for_domains_current (rt ip : string) (ds : list ptr) (st : St) :
  all_current env rt ip ds st = true ->
  heap (snd (for_domains env rt ip ds st)) = heap st /\
  count_writes (pass_calls env rt ip ds st) = 0 /\
  length (pass_calls env rt ip ds st) = 2 * length ds /\
  pass_lines env rt ip ds st = map (fun p => LogUnchanged ip (heap st p)) ds.
Proof.
  revert st; induction ds as [|p ds IH]; intros st H; simpl in H.
  - repeat split.
  - apply andb_true_iff in H as [Hp Hds].
    destruct (record_current_classify rt ip p st Hp) as (siteId & r0 & Hc).
    destruct (process_domain_parts rt ip p st) as (_ & _ & _ & _ & _ & Hh).
    unfold body_store in Hh; rewrite Hc in Hh.
    destruct (IH _ Hds) as (IHh & IHw & IHl & IHlog).
    rewrite for_domains_cons; simpl.
    rewrite count_writes_app, length_app, IHh, IHw, IHl, IHlog, Hh.
    unfold body_calls, body_line; rewrite Hc.
    split; [reflexivity|]. split; [|split; [simpl; lia|reflexivity]].
    unfold count_writes; simpl.
    rewrite (zone_action_not_write _ (zone_call_action p st)),
      (listing_action_not_write _ (listing_call_action rt siteId p st)).
    reflexivity.
Qed.

(** X13: a pass in which every listed domain is found current (its lookups
    succeed and the first record listed holds the address) sends two lookups
    per domain and no create or update, logs the no-change line for each
    domain, and leaves every domain object as it was. *)
Theorem current_pass_changes_nothing (rt ip : string) (ds : list ptr)
    (st : St) :
  all_current env rt ip ds st = true ->
  heap (snd (for_domains env rt ip ds st)) = heap st /\
  count_writes (new_calls st (snd (for_domains env rt ip ds st))) = 0 /\
  length (new_calls st (snd (for_domains env rt ip ds st))) = 2 * length ds /\
  new_logs st (snd (for_domains env rt ip ds st))
  = map (fun p => LogUnchanged ip (heap st p)) ds.
Proof.
  intros H; rewrite for_domains_new_calls, for_domains_new_logs.
  apply for_domains_current; exact H.
Qed.

(** ** Properties of [Init], [listRecords] and the identifiers *)



(** X15: after [Init] the adapter's TTL is never the empty string, so every
    create and update request of the passes run after it carries a TTL
    parameter with a non-empty value. *)
Theorem ttl_is_never_empty (dnsConf : DnsConfig) (c4 c6 : ptr) (st : St) :
  let st1 := snd (Init env dnsConf c4 c6 st) in
  TTL (esa st1) <> "" /\
  Forall (fun c => is_write c = true ->
                   exists t, call_params c !! "TTL" = Some [t] /\ t <> "")
    (new_calls st1 (snd (AddUpdateDomainRecords env st1))).
Proof.
  intros st1.
  assert (TTL (esa st1) <> "") as Hne.
  { subst st1; rewrite Init_TTL.
    destruct (String.eqb (conf_TTL dnsConf) "") eqn:E; [discriminate|].
    apply String.eqb_neq; exact E. }
  split; [exact Hne|].
  destruct (AddUpdateDomainRecords_ttl env st1) as (_ & cs & Hcs & Httl).
  rewrite (new_calls_app _ _ _ Hcs).
  eapply Forall_impl; [exact Httl|].
  intros c Hc Hw; exists (TTL (esa st1)); split; [apply Hc, Hw|exact Hne].
Qed.

(** X16: [listRecords] sends one ListRecords query that names the zone, the
    full domain name with exact name matching, and the record type, and
    nothing else.  It returns the error of a failed request unchanged and
    otherwise the records of the reply as listed: an empty list is a result,
    not an error, and the reply's TotalCount is not consulted. *)
Theorem listRecords_returns_the_listing (siteId : Z) (p : ptr) (rt : string)
    (st : St) :
  let params := listRecords_params env siteId (heap st p) rt in
  snd (listRecords env siteId p rt st) = after_call env params st /\
  fst (listRecords env siteId p rt st)
  = match reply_to env params st with
    | Err e => Err e
    | Ok b => Ok (body_Records b)
    end /\
  map (fun key => params !! key)
    ["Action"; "Version"; "SiteId"; "RecordName"; "RecordNameMode"; "Type"]
  = [Some ["ListRecords"]; Some ["2024-09-10"]; Some [FormatInt siteId];
     Some [GetFullDomain env (heap st p)]; Some ["exact"]; Some [rt]] /\
  forall key,
    ~ In key ["Action"; "Version"; "SiteId"; "RecordName"; "RecordNameMode";
              "Type"] ->
    params !! key = None.
Proof.
  intros params; split; [apply listRecords_after|]. split; [|split].
  - unfold listRecords, bind, deref; rewrite request_after; fold params.
    destruct (reply_to env params st); reflexivity.
  - subst params; simpl.
    repeat match goal with |- _ :: _ = _ :: _ => f_equal end; params_lookup.
  - intros key Hk; subst params; unfold listRecords_params, Values_Set.
    rewrite !lookup_insert_ne
      by (intros <-; apply Hk; simpl; tauto).
    apply lookup_empty.
Qed.

Lemma Z_to_int_proper (z : Z) :
  Z.to_int z <> Decimal.Pos Decimal.Nil /\
  Z.to_int z <> Decimal.Neg Decimal.Nil.
Proof.
  destruct z as [|q|q]; simpl; split; try discriminate;
    intros H; injection H as H;
    exact (DecimalPos.Unsigned.to_uint_nonnil q H).
Qed.

Lemma ParseInt_FormatInt (z : Z) : ParseInt (FormatInt z) = Some z.
Proof.
  unfold ParseInt, FormatInt.
  destruct (Z_to_int_proper z) as [H1 H2].
  rewrite (NilZero.isi _ H1 H2); simpl.
  rewrite DecimalZ.of_to; reflexivity.
Qed.

(** X17: the decimal text written for a zone or record identifier parses
    back to the identifier, so two identifiers share a SiteId or RecordId
    parameter only when they are equal: an update names one record and no
    other. *)
Theorem identifiers_round_trip (a b : Z) (ttl : string) (siteId : Z)
    (r r' : ESARecord) (d : Domain) (rt ip : string) :
  ParseInt (FormatInt a) = Some a /\
  (FormatInt a = FormatInt b -> a = b) /\
  (modify_params env ttl siteId r d rt ip !! "RecordId"
   = modify_params env ttl siteId r' d rt ip !! "RecordId" ->
   RecordId r = RecordId r').
Proof.
  assert (forall x y, FormatInt x = FormatInt y -> x = y) as Hinj.
  { intros x y H.
    assert (ParseInt (FormatInt x) = ParseInt (FormatInt y)) as E
      by (rewrite H; reflexivity).
    rewrite !ParseInt_FormatInt in E; injection E; auto. }
  split; [apply ParseInt_FormatInt|]. split; [apply Hinj|].
  unfold modify_params, Values_Set.
  rewrite !(lookup_insert_ne _ "TTL"), !(lookup_insert_ne _ "Data"),
    !(lookup_insert_ne _ "Type"), !(lookup_insert_ne _ "RecordName"),
    !lookup_insert_eq by (intro; discriminate).
  intros H; injection H as H; apply Hinj; exact H.
Qed.




(** X19: the loop of a pass changes neither the adapter struct (credentials,
    TTL, [Domains]) nor any IP cache, whatever the outcomes of its domains
    are; after a whole pass the caches and the [Domains] struct are those
    [GetNewIpResult] returned. *)
Theorem pass_never_writes_the_caches (rt ip : string) (ds : list ptr)
    (st : St) :
  esa (snd (for_domains env rt ip ds st)) = esa st /\
  caches (snd (for_domains env rt ip ds st)) = caches st /\
  caches (snd (addUpdateDomainRecords env rt st))
  = cm_caches (snd (GetNewIpResult env rt (mem_of st))) /\
  Domains (esa (snd (addUpdateDomainRecords env rt st)))
  = cm_Domains (snd (GetNewIpResult env rt (mem_of st))).
Proof.
  destruct (for_domains_progress env rt ip ds st) as [He Hc _ _].
  destruct (addUpdateDomainRecords_progress env rt st) as [He' Hc' _ _].
  split; [exact He|]. split; [exact Hc|].
  rewrite He', Hc'; unfold get_new_ip_result.
  destruct (GetNewIpResult env rt (mem_of st)); split; reflexivity.
Qed.

End Coverage.

(** ** The claims on the example provider *)

Lemma unchanged_record_is_left_alone_witness :
  fst (lookups demo_env "A" 0 unchanged_state) = Ok (7%Z, [home_record]) /\
  Data_Value home_record = demo_ip /\
  heap (snd (process_domain demo_env "A" demo_ip 0 unchanged_state))
  = heap unchanged_state.
Proof.
  assert (fst (lookups demo_env "A" 0 unchanged_state)
          = Ok (7%Z, [home_record])) as H1 by (vm_compute; reflexivity).
  split; [exact H1|]. split; [reflexivity|].
  exact (proj1 (unchanged_record_is_left_alone demo_env "A" demo_ip 0
                  unchanged_state 7 home_record [] H1 eq_refl)).
Defined.

(** C1, as stated, fails: the record of the domain holds the current address,
    and after the pass the status of the domain is still NotExecuted, not
    Success. *)
Lemma unchanged_record_status_not_success :
  fst (lookups demo_env "A" 0 unchanged_state) = Ok (7%Z, [home_record]) /\
  Data_Value home_record = demo_ip /\
  UpdateStatus
    (heap (snd (addUpdateDomainRecords demo_env "A" unchanged_state)) 0)
  = NotExecuted /\
  UpdateStatus
    (heap (snd (addUpdateDomainRecords demo_env "A" unchanged_state)) 0)
  <> UpdatedSuccess.
Proof.
  split; [vm_compute; reflexivity|]. split; [reflexivity|].
  split; [vm_compute; reflexivity|].
  vm_compute; discriminate.
Qed.

Lemma getSiteId_takes_first_site_witness :
  fst (getSiteId demo_env "example.com" unchanged_state) = Ok 7%Z.
Proof.
  rewrite (proj2 (proj2 (proj2
    (getSiteId_takes_first_site demo_env "example.com" unchanged_state)))).
  vm_compute; reflexivity.
Defined.

(** C2, as stated, fails: two sites carry the exact name, and zone resolution
    returns the identifier of the first one instead of an error. *)
Lemma two_sites_same_name_no_error :
  reply_to demo_env (getSiteId_params "example.com") two_sites_state
  = Ok (sites_body [demo_site 7; demo_site 8]) /\
  map SiteName [demo_site 7; demo_site 8] = ["example.com"; "example.com"] /\
  fst (getSiteId demo_env "example.com" two_sites_state) = Ok 7%Z.
Proof. repeat split; vm_compute; reflexivity. Qed.


Lemma lookup_error_is_isolated_witness :
  fst (lookups demo_env "A" 0
         (snd (for_domains demo_env "A" demo_ip [] failing_state)))
  = Err "timeout" /\
  heap (snd (process_domain demo_env "A" demo_ip 0
               (snd (for_domains demo_env "A" demo_ip [] failing_state))))
  = store_status 0 UpdatedFailed
      (heap (snd (for_domains demo_env "A" demo_ip [] failing_state))).
Proof.
  assert (fst (lookups demo_env "A" 0
            (snd (for_domains demo_env "A" demo_ip [] failing_state)))
          = Err "timeout") as H1 by (vm_compute; reflexivity).
  split; [exact H1|].
  exact (proj1 (lookup_error_is_isolated demo_env "A" demo_ip [] [1] 0
                  failing_state "timeout" H1)).
Defined.

(** C4, as stated, fails in its last part: the zone query of the first domain
    fails, the second domain is processed (its two lookups are sent), and as
    its record already holds the address its status ends neither Success nor
    Failed. *)
Lemma failed_lookup_then_unchanged_domain :
  fst (lookups demo_env "A" 0 failing_state) = Err "timeout" /\
  UpdateStatus
    (heap (snd (addUpdateDomainRecords demo_env "A" failing_state)) 0)
  = UpdatedFailed /\
  map call_action
    (sent (snd (addUpdateDomainRecords demo_env "A" failing_state)))
  = [Some ["ListSites"]; Some ["ListSites"]; Some ["ListRecords"]] /\
  UpdateStatus
    (heap (snd (addUpdateDomainRecords demo_env "A" failing_state)) 1)
  = NotExecuted.
Proof. repeat split; vm_compute; reflexivity. Qed.


Lemma only_first_record_is_used_witness :
  fst (lookups demo_env "A" 0 two_records_state)
  = Ok (7%Z, [stale_record 11 "198.51.100.1"; stale_record 12 "198.51.100.2"])
  /\
  process_domain demo_env "A" demo_ip 0 two_records_state
  = modify demo_env 7 (stale_record 11 "198.51.100.1") 0 "A" demo_ip
      (snd (lookups demo_env "A" 0 two_records_state)).
Proof.
  assert (fst (lookups demo_env "A" 0 two_records_state)
          = Ok (7%Z, [stale_record 11 "198.51.100.1";
                    stale_record 12 "198.51.100.2"]))
    as H1 by (vm_compute; reflexivity).
  split; [exact H1|].
  exact (proj1 (only_first_record_is_used demo_env "A" demo_ip 0
                  two_records_state 7 _ _ [] H1)).
Defined.

Lemma writes_carry_configured_ttl_witness :
  TTL (esa (snd (Init demo_env (demo_conf "") 0 1 first_run_state))) = "30" /\
  TTL (esa (snd (Init demo_env (demo_conf "600") 0 1 first_run_state)))
  = "600".
Proof.
  split.
  - exact (proj1 (writes_carry_configured_ttl demo_env (demo_conf "") 0 1
                    first_run_state)).
  - exact (proj1 (writes_carry_configured_ttl demo_env (demo_conf "600") 0 1
                    first_run_state)).
Defined.



Lemma every_request_is_signed_witness :
  issues demo_env first_run_state
    (snd (AddUpdateDomainRecords demo_env first_run_state)).
Proof.
  exact (proj2 (proj2 (proj2 (proj2 (proj2 (proj2 (proj2
    (every_request_is_signed demo_env first_run_state)))))))).
Defined.

Lemma pass_writes_status_only_witness :
  Data_Value home_record = demo_ip /\
  modify demo_env 7 home_record 0 "A" demo_ip unchanged_state
  = (tt, add_log (LogUnchanged demo_ip (heap unchanged_state 0))
           unchanged_state).
Proof.
  split; [reflexivity|].
  exact (proj1 (proj2 (proj2 (proj2
    (pass_writes_status_only demo_env "A" demo_ip [0] unchanged_state))))
    7%Z home_record 0 eq_refl).
Defined.

(** ** The further properties on the example provider *)

Lemma zone_error_skips_listing_witness :
  fst (getSiteId demo_env (DomainName (heap failing_state 0)) failing_state)
  = Err "timeout" /\
  new_calls failing_state
    (snd (process_domain demo_env "A" demo_ip 0 failing_state))
  = [zone_call demo_env 0 failing_state].
Proof.
  assert (fst (getSiteId demo_env (DomainName (heap failing_state 0))
                 failing_state) = Err "timeout") as H1
    by (vm_compute; reflexivity).
  split; [exact H1|].
  exact (proj1 (zone_error_skips_listing demo_env "A" demo_ip 0 failing_state
                  "timeout" H1)).
Defined.

Lemma listing_error_skips_write_witness :
  fst (getSiteId demo_env (DomainName (heap list_error_state 0))
         list_error_state) = Ok 7%Z /\
  fst (listRecords demo_env 7 0 "A"
         (snd (getSiteId demo_env (DomainName (heap list_error_state 0))
                 list_error_state))) = Err "timeout" /\
  UpdateStatus
    (heap (snd (process_domain demo_env "A" demo_ip 0 list_error_state)) 0)
  = UpdatedFailed.
Proof.
  assert (fst (getSiteId demo_env (DomainName (heap list_error_state 0))
                 list_error_state) = Ok 7%Z) as H1
    by (vm_compute; reflexivity).
  assert (fst (listRecords demo_env 7 0 "A"
                 (snd (getSiteId demo_env
                         (DomainName (heap list_error_state 0))
                         list_error_state))) = Err "timeout") as H2
    by (vm_compute; reflexivity).
  split; [exact H1|]. split; [exact H2|].
  exact (proj2 (proj2 (proj2
    (listing_error_skips_write demo_env "A" demo_ip 0 list_error_state 7
       "timeout" H1 H2)))).
Defined.


Lemma write_targets_what_was_listed_witness :
  new_calls first_run_state
    (snd (process_domain demo_env "A" demo_ip 1 first_run_state))
  = [zone_call demo_env 1 first_run_state;
     listing_call demo_env "A" 7 1 first_run_state;
     create_call_of demo_env "A" demo_ip 7 1 first_run_state] /\
  call_params (create_call_of demo_env "A" demo_ip 7 1 first_run_state)
    !! "RecordName"
  = Some ["office.example.com"].
Proof.
  assert (new_calls first_run_state
            (snd (process_domain demo_env "A" demo_ip 1 first_run_state))
          = [zone_call demo_env 1 first_run_state;
             listing_call demo_env "A" 7 1 first_run_state;
             create_call_of demo_env "A" demo_ip 7 1 first_run_state]) as H1
    by (vm_compute; reflexivity).
  split; [exact H1|].
  rewrite (proj1 (proj2 (proj2 (proj2
    (write_targets_what_was_listed demo_env "A" demo_ip 1 first_run_state
       _ _ _ H1))))).
  vm_compute; reflexivity.
Defined.

Lemma body_leaves_other_domains_witness :
  1 <> 0 /\
  heap (snd (process_domain demo_env "A" demo_ip 0 stale_state)) 1
  = heap stale_state 1.
Proof.
  assert (1 <> 0) as H1 by lia.
  split; [exact H1|].
  exact (body_leaves_other_domains demo_env "A" demo_ip 0 1 stale_state H1).
Defined.

Lemma status_is_owned_by_own_body_witness :
  ~ In 0 [1] /\
  heap (snd (for_domains demo_env "A" demo_ip [0; 1] failing_state)) 0
  = heap (snd (process_domain demo_env "A" demo_ip 0 failing_state)) 0.
Proof.
  assert (~ In 0 [1]) as H1 by (simpl; lia).
  split; [exact H1|].
  exact (proj1 (status_is_owned_by_own_body demo_env "A" demo_ip [] [1] 0
                  failing_state H1)).
Defined.

Lemma unreachable_provider_fails_every_domain_witness :
  (forall q w, exists e, fst (httpGet down_env q w) = Err e) /\
  UpdateStatus (heap (snd (for_domains down_env "A" demo_ip [0; 1] down_state))
                  1)
  = UpdatedFailed.
Proof.
  assert (forall q w, exists e, fst (httpGet down_env q w) = Err e) as H1
    by (intros q w; exists "connection refused"; reflexivity).
  split; [exact H1|].
  apply (proj2 (proj2 (unreachable_provider_fails_every_domain down_env "A"
                         demo_ip [0; 1] down_state H1))).
  simpl; lia.
Defined.

Lemma current_pass_changes_nothing_witness :
  all_current demo_env "A" demo_ip [0; 1] current_state = true /\
  heap (snd (for_domains demo_env "A" demo_ip [0; 1] current_state))
  = heap current_state.
Proof.
  assert (all_current demo_env "A" demo_ip [0; 1] current_state = true) as H1
    by (vm_compute; reflexivity).
  split; [exact H1|].
  exact (proj1 (current_pass_changes_nothing demo_env "A" demo_ip [0; 1]
                  current_state H1)).
Defined.


Lemma ttl_is_never_empty_witness :
  TTL (esa (snd (Init demo_env (demo_conf "") 0 1 dual_state))) <> "".
Proof.
  exact (proj1 (ttl_is_never_empty demo_env (demo_conf "") 0 1 dual_state)).
Defined.

Lemma listRecords_returns_the_listing_witness :
  fst (listRecords demo_env 7 1 "A"
         (snd (getSiteId demo_env "example.com" first_run_state)))
  = Ok [].
Proof.
  rewrite (proj1 (proj2
    (listRecords_returns_the_listing demo_env 7 1 "A"
       (snd (getSiteId demo_env "example.com" first_run_state))))).
  vm_compute; reflexivity.
Defined.

Lemma identifiers_round_trip_witness :
  FormatInt 7 = "7" /\ ParseInt (FormatInt (-12)) = Some (-12)%Z.
Proof.
  split; [vm_compute; reflexivity|].
  exact (proj1 (identifiers_round_trip demo_env (-12) 0 "30" 7 home_record
                  home_record (demo_domain "home" "") "A" demo_ip)).
Defined.

Lemma both_passes_in_sequence_witness :
  map (fun c => (call_action c, call_params c !! "Type"))
    (sent (snd (AddUpdateDomainRecords demo_env dual_state)))
  = [(Some ["ListSites"], None); (Some ["ListRecords"], Some ["A"]);
     (Some ["CreateRecord"], Some ["A"]);
     (Some ["ListSites"], None); (Some ["ListRecords"], Some ["AAAA"]);
     (Some ["CreateRecord"], Some ["AAAA"])].
Proof.
  rewrite (proj1 (both_passes_in_sequence demo_env dual_state)).
  vm_compute; reflexivity.
Defined.
